(** * Mentorship: a shallow embedding of [app.py] and its request ledger

    The application is a Flask program over three SQLAlchemy tables
    ([User], [MentorshipRequest], [Message]).  Every handler of [app.py]
    is embedded as a function from the store (and what the handler reads
    from its environment: the form, the signed-in user, the clock, the
    salt of the key-derivation function) to the new store and the
    response.  The theorems at the end of the file are about these
    functions. *)

From Stdlib Require Import ZArith List String Ascii Bool Lia.
From Stdlib Require Import Sorted Permutation.
Import ListNotations.

Local Open Scope string_scope.
Local Open Scope Z_scope.

(** ** Python text primitives

    Text is modelled over the code points U+0000..U+00FF: a [string] is
    a sequence of [ascii], each read as the code point of its number. *)

Module Py.

Definition ord (c : ascii) : Z := Z.of_N (N_of_ascii c).

(** [str.isspace] on one code point below U+0100: TAB..CR, FS..US,
    SPACE, NEL and NBSP. *)
Definition isspace (c : ascii) : bool :=
  let n := ord c in
  ((9 <=? n) && (n <=? 13)) || ((28 <=? n) && (n <=? 32))
  || (n =? 133) || (n =? 160).

Fixpoint lstrip (s : string) : string :=
  match s with
  | EmptyString => EmptyString
  | String c s' => if isspace c then lstrip s' else s
  end.

Fixpoint rstrip (s : string) : string :=
  match s with
  | EmptyString => EmptyString
  | String c s' =>
      match rstrip s' with
      | EmptyString => if isspace c then EmptyString else String c EmptyString
      | t => String c t
      end
  end.

(** [s.strip()] *)
Definition strip (s : string) : string := rstrip (lstrip s).

(** [str.lower] on one code point below U+0100: A..Z and the Latin-1
    capitals U+00C0..U+00DE (U+00D7, the multiplication sign, apart)
    move up by 32. *)
Definition lower_char (c : ascii) : ascii :=
  let n := ord c in
  if ((65 <=? n) && (n <=? 90))
     || ((192 <=? n) && (n <=? 222) && negb (n =? 215))
  then ascii_of_N (Z.to_N (n + 32))
  else c.

(** [s.lower()] *)
Fixpoint lower (s : string) : string :=
  match s with
  | EmptyString => EmptyString
  | String c s' => String (lower_char c) (lower s')
  end.

(** Truth value of a string: [bool(s)]. *)
Definition truthy (s : string) : bool :=
  match s with EmptyString => false | _ => true end.

(** Truth value of a value that may be [None]. *)
Definition truthy_opt (o : option string) : bool :=
  match o with Some s => truthy s | None => false end.

Definition digit_of (c : ascii) : option Z :=
  let n := ord c in
  if (48 <=? n) && (n <=? 57) then Some (n - 48) else None.

(** The digits of a decimal literal, single underscores allowed
    between two digits. *)
Fixpoint int_digits (s : string) (acc : Z) (after_digit : bool) : option Z :=
  match s with
  | EmptyString => if after_digit then Some acc else None
  | String c s' =>
      match digit_of c with
      | Some d => int_digits s' (10 * acc + d) true
      | None =>
          if (Ascii.eqb c "_") && after_digit then int_digits s' acc false
          else None
      end
  end.

(** The blanks [int] skips around a literal: TAB..CR and SPACE, and
    the blanks above U+007F, NEL and NBSP, which it first turns into
    spaces.  FS..US are blanks to [str.strip] but not to [int]. *)
Definition int_isspace (c : ascii) : bool :=
  let n := ord c in
  ((9 <=? n) && (n <=? 13)) || (n =? 32) || (n =? 133) || (n =? 160).

Fixpoint int_lstrip (s : string) : string :=
  match s with
  | EmptyString => EmptyString
  | String c s' => if int_isspace c then int_lstrip s' else s
  end.

Fixpoint int_rstrip (s : string) : string :=
  match s with
  | EmptyString => EmptyString
  | String c s' =>
      match int_rstrip s' with
      | EmptyString => if int_isspace c then EmptyString else String c EmptyString
      | t => String c t
      end
  end.

(** The number of digits of a literal, which [int] bounds
    ([sys.int_info.default_max_str_digits]). *)
Fixpoint digit_count (s : string) : Z :=
  match s with
  | EmptyString => 0
  | String c s' =>
      match digit_of c with
      | Some _ => 1 + digit_count s'
      | None => digit_count s'
      end
  end.

Definition max_str_digits : Z := 4300.

Definition int_literal (r : string) : option Z :=
  if max_str_digits <? digit_count r then None else int_digits r 0 false.

(** [int(s)] for a string: [None] stands for [ValueError]. *)
Definition int (s : string) : option Z :=
  match int_rstrip (int_lstrip s) with
  | String "+" r => int_literal r
  | String "-" r => option_map Z.opp (int_literal r)
  | t => int_literal t
  end.

End Py.

(** ** The form of a request

    [request.form] is a multi-dict; [get] answers the first value of a
    key. *)

Definition Form := list (string * string).

Fixpoint form_get (f : Form) (key : string) : option string :=
  match f with
  | [] => None
  | (k, v) :: f' => if String.eqb k key then Some v else form_get f' key
  end.

(** [request.form.get(key, default)] *)
Definition form_get_or (f : Form) (key default : string) : string :=
  match form_get f key with Some v => v | None => default end.

Inductive Method := GET | POST.

(** ** The data model: the three tables of [app.py] *)

Module User.
Record t := mk {
  id : Z;
  name : string;
  email : string;
  role : string;
  bio : string;
  skills : string;
  availability : string;
  password_hash : string;
  created_at : Z
}.
End User.

Module MentorshipRequest.
Record t := mk {
  id : Z;
  mentor_id : Z;
  mentee_id : Z;
  goal : string;
  status : string;
  created_at : Z
}.

Definition set_status (r : t) (s : string) : t :=
  mk (id r) (mentor_id r) (mentee_id r) (goal r) s (created_at r).
End MentorshipRequest.

Module Message.
Record t := mk {
  id : Z;
  mentorship_id : Z;
  sender_id : Z;
  body : string;
  created_at : Z
}.
End Message.

(** The store: each table is the sequence of its rows in insertion
    order. *)
Record Database := mkDatabase {
  users : list User.t;
  mentorship_requests : list MentorshipRequest.t;
  messages : list Message.t
}.

Definition empty_db : Database := mkDatabase [] [] [].

(** ** Queries *)

(** An integer primary key of the store is a signed 64-bit value; a
    larger Python integer cannot be bound to a statement and the driver
    raises. *)
Definition in_key_range (k : Z) : bool :=
  (- 2 ^ 63 <=? k) && (k <? 2 ^ 63).

(** What a query by primary key gives: a row, nothing, or an exception
    of the driver. *)
Inductive Lookup (A : Type) :=
| Found (row : A)
| Missing
| Raised.
Arguments Found {A} row.
Arguments Missing {A}.
Arguments Raised {A}.

Section Table.
Context {A : Type} (key : A -> Z).

(** [Model.query.get(k)] *)
Definition query_get (rows : list A) (k : Z) : Lookup A :=
  if in_key_range k then
    match find (fun r => key r =? k) rows with
    | Some r => Found r
    | None => Missing
    end
  else Raised.

(** The key the store gives the next inserted row: one above the
    largest key in the table. *)
Definition next_id (rows : list A) : Z :=
  1 + fold_right (fun r m => Z.max (key r) m) 0 rows.

(** [ORDER BY key ASC]: rows with equal keys keep their table order. *)
Fixpoint insert_asc (x : A) (l : list A) : list A :=
  match l with
  | [] => [x]
  | y :: l' => if key x <=? key y then x :: l else y :: insert_asc x l'
  end.

Definition order_by_asc (l : list A) : list A :=
  fold_right insert_asc [] l.

(** [ORDER BY key DESC] *)
Fixpoint insert_desc (x : A) (l : list A) : list A :=
  match l with
  | [] => [x]
  | y :: l' => if key y <=? key x then x :: l else y :: insert_desc x l'
  end.

Definition order_by_desc (l : list A) : list A :=
  fold_right insert_desc [] l.
End Table.

(** [User.query.filter_by(email=email).first()] *)
Definition first_by_email (db : Database) (email : string) : option User.t :=
  find (fun u => String.eqb (User.email u) email) (users db).

(** [User.query.filter_by(role=role).all()] *)
Definition users_by_role (db : Database) (role : string) : list User.t :=
  filter (fun u => String.eqb (User.role u) role) (users db).

(** The query of [dashboard] and [mentorships]: the requests in which
    [uid] is mentor or mentee, most recent first. *)
Definition requests_of (db : Database) (uid : Z) : list MentorshipRequest.t :=
  order_by_desc MentorshipRequest.created_at
    (filter (fun r => (MentorshipRequest.mentor_id r =? uid)
                      || (MentorshipRequest.mentee_id r =? uid))
            (mentorship_requests db)).

(** [mentorship.messages]: the rows of [message] that reference the
    request. *)
Definition messages_of (db : Database) (rid : Z) : list Message.t :=
  filter (fun m => Message.mentorship_id m =? rid) (messages db).

(** [mentorship.messages.order_by(Message.created_at.asc()).all()] *)
Definition chat_of (db : Database) (rid : Z) : list Message.t :=
  order_by_asc Message.created_at (messages_of db rid).

(** ** Responses *)

Inductive Endpoint :=
| to_index
| to_login
| to_dashboard
| to_mentorships
| to_mentorship_messages (request_id : Z).

Record Stats := mkStats {
  total_users : Z;
  mentor_count : Z;
  mentee_count : Z;
  active_mentorships : Z
}.

(** A rendered template with the values it is given. *)
Inductive Page :=
| index_html
| register_html
| login_html
| edit_profile_html
| dashboard_html (mentors mentees : list User.t)
                 (my_requests : list MentorshipRequest.t) (stats : Stats)
| mentorships_html (mentors : list User.t) (requests : list MentorshipRequest.t)
| messages_html (mentorship : MentorshipRequest.t) (messages : list Message.t).

Inductive Reply :=
| Redirect (target : Endpoint)
| Render (page : Page)
| Abort (code : Z)
| Unhandled.

(** What a handler does to the signed-in session. *)
Inductive SessionOp :=
| Keep
| LoginAs (user_id : Z)
| Clear.

Record Response := mkResponse {
  flash : option (string * string);
  reply : Reply;
  session_op : SessionOp
}.

Definition respond (msg category : string) (r : Reply) : Response :=
  mkResponse (Some (msg, category)) r Keep.

Definition quiet (r : Reply) : Response := mkResponse None r Keep.

(** The error kinds of the specification, read off what a response
    tells the user: an "error" notice is classified by its text, a 404
    is [NotFoundError]. *)
Inductive Error :=
| ValidationError
| ConflictError
| AuthError
| AuthorizationError
| NotFoundError.

Definition notices : list (string * Error) :=
  [ ("Please fill out all required fields.", ValidationError);
    ("Please choose a valid role.", ValidationError);
    ("An account with that email already exists.", ConflictError);
    ("Invalid email or password.", AuthError);
    ("Please select a mentor and describe your goal.", ValidationError);
    ("Only mentees can request mentorships.", AuthorizationError);
    ("Selected mentor is not available.", ValidationError);
    ("Only the assigned mentor can accept this request.", AuthorizationError);
    ("Only the assigned mentor can decline this request.", AuthorizationError);
    ("You cannot complete an unrelated request.", AuthorizationError);
    ("You are not part of this mentorship.", AuthorizationError);
    ("Message cannot be empty.", ValidationError) ].

Fixpoint notice_kind (msg : string) (table : list (string * Error)) : option Error :=
  match table with
  | [] => None
  | (m, e) :: table' => if String.eqb m msg then Some e else notice_kind msg table'
  end.

Definition error_of (r : Response) : option Error :=
  match reply r with
  | Abort code => if code =? 404 then Some NotFoundError else None
  | _ =>
      match flash r with
      | Some (msg, category) =>
          if String.eqb category "error" then notice_kind msg notices else None
      | None => None
      end
  end.

(** ** The key-derivation function

    [passlib.hash.pbkdf2_sha256] is an external collaborator: [hash]
    draws a salt and derives a digest, [verify] recomputes it.  The salt
    the library draws is an input of the model.  Both raise
    [PasswordSizeError] on a secret of more than 4096 characters, and
    [verify] raises on a digest it cannot read: [None] stands for the
    exception. *)

(** [passlib]'s bound on the size of a secret. *)
Definition MAX_PASSWORD_SIZE : nat := 4096.

(** [s.startswith(p)] *)
Fixpoint starts_with (p s : string) : bool :=
  match p, s with
  | EmptyString, _ => true
  | String _ _, EmptyString => false
  | String a p', String b s' => Ascii.eqb a b && starts_with p' s'
  end.

Definition too_long (secret : string) : bool :=
  Nat.ltb MAX_PASSWORD_SIZE (String.length secret).

Class PasswordHasher := {
  pbkdf2_sha256_hash : string -> string -> option string;
  pbkdf2_sha256_verify : string -> string -> option bool;
  hash_raises : forall salt secret,
      pbkdf2_sha256_hash salt secret = None <-> too_long secret = true;
  verify_raises : forall secret digest,
      too_long secret = true -> pbkdf2_sha256_verify secret digest = None;
  verify_hash : forall salt secret digest,
      pbkdf2_sha256_hash salt secret = Some digest ->
      pbkdf2_sha256_verify secret digest = Some true;
  hash_format : forall salt secret digest,
      pbkdf2_sha256_hash salt secret = Some digest ->
      starts_with "$pbkdf2-sha256$" digest = true
}.

Section Application.
Context {hasher : PasswordHasher}.

(** [User.set_password]: [None] when [pbkdf2_sha256.hash] raises. *)
Definition set_password (salt password : string) (u : User.t)
  : option User.t :=
  match pbkdf2_sha256_hash salt password with
  | Some digest =>
      Some (User.mk (User.id u) (User.name u) (User.email u) (User.role u)
                    (User.bio u) (User.skills u) (User.availability u)
                    digest (User.created_at u))
  | None => None
  end.

(** [User.check_password]: [None] when [pbkdf2_sha256.verify] raises. *)
Definition check_password (u : User.t) (password : string) : option bool :=
  pbkdf2_sha256_verify password (User.password_hash u).

(** [User(name=name, email=email, role=role)]: a row not yet stored;
    the text columns take their defaults. *)
Definition new_user (name email role : string) : User.t :=
  User.mk 0 name email role "" "" "" "" 0.

(** [db.session.add(user); db.session.commit()]: the store assigns
    the key and [created_at] takes [datetime.utcnow()]. *)
Definition add_user (db : Database) (u : User.t) (now : Z) : Database * User.t :=
  let u' := User.mk (next_id User.id (users db)) (User.name u) (User.email u)
                    (User.role u) (User.bio u) (User.skills u)
                    (User.availability u) (User.password_hash u) now in
  (mkDatabase (users db ++ [u']) (mentorship_requests db) (messages db), u').

(** [MentorshipRequest(mentor_id=.., mentee_id=.., goal=..)] stored:
    [status] takes its default ["pending"]. *)
Definition add_mentorship (db : Database) (mentor_id mentee_id : Z)
           (goal : string) (now : Z) : Database :=
  let r := MentorshipRequest.mk (next_id MentorshipRequest.id (mentorship_requests db))
                                mentor_id mentee_id goal "pending" now in
  mkDatabase (users db) (mentorship_requests db ++ [r]) (messages db).

(** [Message(mentorship_id=.., sender_id=.., body=..)] stored. *)
Definition add_message (db : Database) (mentorship_id sender_id : Z)
           (body : string) (now : Z) : Database :=
  let m := Message.mk (next_id Message.id (messages db))
                      mentorship_id sender_id body now in
  mkDatabase (users db) (mentorship_requests db) (messages db ++ [m]).

(** [mentorship.status = s; db.session.commit()]: the row of that key
    is rewritten. *)
Definition update_status (db : Database) (rid : Z) (s : string) : Database :=
  mkDatabase (users db)
             (map (fun r => if MentorshipRequest.id r =? rid
                            then MentorshipRequest.set_status r s else r)
                  (mentorship_requests db))
             (messages db).

(** [current_user.name = ..; current_user.bio = ..; ..;
    db.session.commit()]: the four columns are rewritten in the row of
    that key. *)
Definition update_profile (db : Database) (uid : Z)
           (name bio skills availability : string) : Database :=
  mkDatabase (map (fun u => if User.id u =? uid
                            then User.mk (User.id u) name (User.email u)
                                         (User.role u) bio skills availability
                                         (User.password_hash u)
                                         (User.created_at u)
                            else u)
                  (users db))
             (mentorship_requests db) (messages db).

(** Modelled from the spec: the administrative path that deletes a
    mentorship request, which is not in [app.py] (no handler deletes a
    request; [app.py] only declares the relationship [messages] of
    line 53 with [cascade="all, delete-orphan"]).  The specification
    says of it: "deleting a request cascades to delete its messages
    (ownership: request exclusively owns its messages)".  So the
    request row of that id goes, and with it the rows of [message]
    that reference it. *)
Definition delete_mentorship (db : Database) (rid : Z) : Database :=
  mkDatabase (users db)
             (filter (fun r => negb (MentorshipRequest.id r =? rid))
                     (mentorship_requests db))
             (filter (fun m => negb (Message.mentorship_id m =? rid))
                     (messages db)).

(** [load_user] *)
Definition load_user (db : Database) (user_id : Z) : Lookup User.t :=
  query_get User.id (users db) user_id.

(** [@login_required]: the view runs for the user of the session;
    with no such user the caller is sent to the login view. *)
Definition login_required (db : Database) (session : option Z)
           (view : User.t -> Database * Response) : Database * Response :=
  match session with
  | None => (db, respond "Please log in to access this page." "message"
                         (Redirect to_login))
  | Some uid =>
      match load_user db uid with
      | Found u => view u
      | Missing => (db, respond "Please log in to access this page." "message"
                                (Redirect to_login))
      | Raised => (db, quiet Unhandled)
      end
  end.

(** [index] *)
Definition index (session : option Z) (db : Database) : Database * Response :=
  match session with
  | None => (db, quiet (Render index_html))
  | Some uid =>
      match load_user db uid with
      | Found _ => (db, quiet (Redirect to_dashboard))
      | Missing => (db, quiet (Render index_html))
      | Raised => (db, quiet Unhandled)
      end
  end.

(** [role in {"mentor", "mentee"}] *)
Definition valid_role (role : string) : bool :=
  String.eqb role "mentor" || String.eqb role "mentee".

(** [register] *)
Definition register (m : Method) (form : Form) (salt : string) (now : Z)
           (db : Database) : Database * Response :=
  match m with
  | GET => (db, quiet (Render register_html))
  | POST =>
      let name := Py.strip (form_get_or form "name" "") in
      let email := Py.lower (Py.strip (form_get_or form "email" "")) in
      let role := form_get form "role" in
      let password := form_get_or form "password" "" in
      if negb (Py.truthy name && Py.truthy email
               && Py.truthy_opt role && Py.truthy password)
      then (db, respond "Please fill out all required fields." "error"
                        (Render register_html))
      else
        match role with
        | None => (db, respond "Please choose a valid role." "error"
                               (Render register_html))
        | Some role =>
            if negb (valid_role role)
            then (db, respond "Please choose a valid role." "error"
                              (Render register_html))
            else
              match first_by_email db email with
              | Some _ =>
                  (db, respond "An account with that email already exists."
                               "error" (Render register_html))
              | None =>
                  match set_password salt password
                                     (new_user name email role) with
                  | None => (db, quiet Unhandled)
                  | Some user =>
                      let (db', user') := add_user db user now in
                      (db', mkResponse
                              (Some ("Welcome to the mentorship community!",
                                     "success"))
                              (Redirect to_dashboard) (LoginAs (User.id user')))
                  end
              end
        end
  end.

(** [login] *)
Definition login (m : Method) (form : Form) (db : Database)
  : Database * Response :=
  match m with
  | GET => (db, quiet (Render login_html))
  | POST =>
      let email := Py.lower (Py.strip (form_get_or form "email" "")) in
      let password := form_get_or form "password" "" in
      match first_by_email db email with
      | Some user =>
          match check_password user password with
          | None => (db, quiet Unhandled)
          | Some true =>
              (db, mkResponse (Some ("Successfully signed in.", "success"))
                              (Redirect to_dashboard) (LoginAs (User.id user)))
          | Some false =>
              (db, respond "Invalid email or password." "error"
                           (Render login_html))
          end
      | None => (db, respond "Invalid email or password." "error"
                             (Render login_html))
      end
  end.

(** [logout] *)
Definition logout (current_user : User.t) (db : Database)
  : Database * Response :=
  (db, mkResponse (Some ("Signed out successfully.", "info"))
                  (Redirect to_index) Clear).

(** [dashboard] *)
Definition dashboard (current_user : User.t) (db : Database)
  : Database * Response :=
  let mentors := users_by_role db "mentor" in
  let mentees := users_by_role db "mentee" in
  let my_requests := requests_of db (User.id current_user) in
  let stats :=
    mkStats (Z.of_nat (List.length (users db)))
            (Z.of_nat (List.length mentors))
            (Z.of_nat (List.length mentees))
            (Z.of_nat (List.length (filter
               (fun r => String.eqb (MentorshipRequest.status r) "accepted")
               (mentorship_requests db)))) in
  (db, quiet (Render (dashboard_html mentors mentees my_requests stats))).

(** [edit_profile] *)
Definition edit_profile (current_user : User.t) (m : Method) (form : Form)
           (db : Database) : Database * Response :=
  match m with
  | GET => (db, quiet (Render edit_profile_html))
  | POST =>
      (update_profile db (User.id current_user)
         (form_get_or form "name" (User.name current_user))
         (form_get_or form "bio" (User.bio current_user))
         (form_get_or form "skills" (User.skills current_user))
         (form_get_or form "availability" (User.availability current_user)),
       respond "Profile updated." "success" (Redirect to_dashboard))
  end.

(** The listing that ends [mentorships]. *)
Definition mentorships_page (current_user : User.t) (db : Database) : Reply :=
  Render (mentorships_html (users_by_role db "mentor")
                           (requests_of db (User.id current_user))).

(** [mentorships] *)
Definition mentorships (current_user : User.t) (m : Method) (form : Form)
           (now : Z) (db : Database) : Database * Response :=
  match m with
  | GET => (db, quiet (mentorships_page current_user db))
  | POST =>
      let mentor_id := form_get form "mentor_id" in
      let goal := Py.strip (form_get_or form "goal" "") in
      if negb (Py.truthy_opt mentor_id) || negb (Py.truthy goal)
      then (db, respond "Please select a mentor and describe your goal."
                        "error" (mentorships_page current_user db))
      else if negb (String.eqb (User.role current_user) "mentee")
      then (db, respond "Only mentees can request mentorships." "error"
                        (mentorships_page current_user db))
      else
        match Py.int (match mentor_id with Some s => s | None => "" end) with
        | None => (db, quiet Unhandled)
        | Some k =>
            match query_get User.id (users db) k with
            | Raised => (db, quiet Unhandled)
            | Found mentor =>
                if String.eqb (User.role mentor) "mentor"
                then (add_mentorship db (User.id mentor)
                                     (User.id current_user) goal now,
                      respond "Mentorship request created." "success"
                              (Redirect to_mentorships))
                else (db, respond "Selected mentor is not available." "error"
                                  (mentorships_page current_user db))
            | Missing =>
                (db, respond "Selected mentor is not available." "error"
                             (mentorships_page current_user db))
            end
        end
  end.

(** [MentorshipRequest.query.get_or_404(request_id)] followed by the
    rest of the view. *)
Definition get_or_404 (db : Database) (request_id : Z)
           (k : MentorshipRequest.t -> Database * Response)
  : Database * Response :=
  match query_get MentorshipRequest.id (mentorship_requests db) request_id with
  | Found mentorship => k mentorship
  | Missing => (db, quiet (Abort 404))
  | Raised => (db, quiet Unhandled)
  end.

(** [accept_request] *)
Definition accept_request (current_user : User.t) (request_id : Z)
           (db : Database) : Database * Response :=
  get_or_404 db request_id (fun mentorship =>
    if negb (MentorshipRequest.mentor_id mentorship =? User.id current_user)
    then (db, respond "Only the assigned mentor can accept this request."
                      "error" (Redirect to_mentorships))
    else (update_status db (MentorshipRequest.id mentorship) "accepted",
          respond "Mentorship accepted. Start collaborating!" "success"
                  (Redirect to_mentorships))).

(** [decline_request] *)
Definition decline_request (current_user : User.t) (request_id : Z)
           (db : Database) : Database * Response :=
  get_or_404 db request_id (fun mentorship =>
    if negb (MentorshipRequest.mentor_id mentorship =? User.id current_user)
    then (db, respond "Only the assigned mentor can decline this request."
                      "error" (Redirect to_mentorships))
    else (update_status db (MentorshipRequest.id mentorship) "declined",
          respond "Request declined." "info" (Redirect to_mentorships))).

(** [current_user.id not in {mentorship.mentor_id, mentorship.mentee_id}] *)
Definition unrelated (current_user : User.t) (mentorship : MentorshipRequest.t)
  : bool :=
  negb ((User.id current_user =? MentorshipRequest.mentor_id mentorship)
        || (User.id current_user =? MentorshipRequest.mentee_id mentorship)).

(** [complete_request] *)
Definition complete_request (current_user : User.t) (request_id : Z)
           (db : Database) : Database * Response :=
  get_or_404 db request_id (fun mentorship =>
    if unrelated current_user mentorship
    then (db, respond "You cannot complete an unrelated request." "error"
                      (Redirect to_mentorships))
    else (update_status db (MentorshipRequest.id mentorship) "completed",
          respond "Mentorship marked as completed." "success"
                  (Redirect to_mentorships))).

(** The listing that ends [mentorship_messages]. *)
Definition messages_page (mentorship : MentorshipRequest.t) (db : Database)
  : Reply :=
  Render (messages_html mentorship
                        (chat_of db (MentorshipRequest.id mentorship))).

(** [mentorship_messages] *)
Definition mentorship_messages (current_user : User.t) (m : Method)
           (request_id : Z) (form : Form) (now : Z) (db : Database)
  : Database * Response :=
  get_or_404 db request_id (fun mentorship =>
    if unrelated current_user mentorship
    then (db, respond "You are not part of this mentorship." "error"
                      (Redirect to_mentorships))
    else
      match m with
      | GET => (db, quiet (messages_page mentorship db))
      | POST =>
          let body := Py.strip (form_get_or form "body" "") in
          if Py.truthy body
          then (add_message db (MentorshipRequest.id mentorship)
                            (User.id current_user) body now,
                respond "Message sent." "success"
                        (Redirect (to_mentorship_messages request_id)))
          else (db, respond "Message cannot be empty." "error"
                            (messages_page mentorship db))
      end).

(** ** The application as a transition system

    One step is one HTTP request served to completion. *)

Inductive Action :=
| Index
| Register (m : Method) (form : Form) (salt : string)
| Login (m : Method) (form : Form)
| Logout
| Dashboard
| EditProfile (m : Method) (form : Form)
| Mentorships (m : Method) (form : Form)
| Accept (request_id : Z)
| Decline (request_id : Z)
| Complete (request_id : Z)
| Messages (m : Method) (request_id : Z) (form : Form).

(** [session] is the user id the caller's session carries, [now] the
    reading of the server clock while the request is served. *)
Definition step (db : Database) (session : option Z) (now : Z) (a : Action)
  : Database * Response :=
  match a with
  | Index => index session db
  | Register m form salt => register m form salt now db
  | Login m form => login m form db
  | Logout => login_required db session (fun u => logout u db)
  | Dashboard => login_required db session (fun u => dashboard u db)
  | EditProfile m form =>
      login_required db session (fun u => edit_profile u m form db)
  | Mentorships m form =>
      login_required db session (fun u => mentorships u m form now db)
  | Accept rid => login_required db session (fun u => accept_request u rid db)
  | Decline rid => login_required db session (fun u => decline_request u rid db)
  | Complete rid => login_required db session (fun u => complete_request u rid db)
  | Messages m rid form =>
      login_required db session
                     (fun u => mentorship_messages u m rid form now db)
  end.

(** What happens to the store: a request of some caller, served at
    some reading of the clock, or the administrative deletion of a
    mentorship request. *)
Inductive Event :=
| Request (session : option Z) (now : Z) (a : Action)
| DeleteMentorship (request_id : Z).

Definition apply_event (db : Database) (e : Event) : Database :=
  match e with
  | Request session now a => fst (step db session now a)
  | DeleteMentorship rid => delete_mentorship db rid
  end.

Definition run (db : Database) (events : list Event) : Database :=
  fold_left apply_event events db.

(** The stores the application can be in. *)
Definition reachable (db : Database) : Prop :=
  exists events, db = run empty_db events.

End Application.

(** ** A concrete instance and a concrete store

    The interface of the key-derivation function is inhabited: this
    instance keeps the salt and the secret readable in the digest, which
    is all the runs below need, and raises where [passlib] does. *)

Fixpoint ends_with (suffix s : string) : bool :=
  String.eqb s suffix
  || match s with
     | String _ s' => ends_with suffix s'
     | EmptyString => false
     end.

Lemma ends_with_app (p t : string) : ends_with t (p ++ t) = true.
Proof.
  induction p as [| c p IH]; simpl.
  - destruct t; simpl; [reflexivity |].
    now rewrite Ascii.eqb_refl, String.eqb_refl.
  - rewrite IH. apply orb_true_r.
Qed.

Definition demo_hash (salt secret : string) : option string :=
  if too_long secret then None
  else Some ("$pbkdf2-sha256$" ++ salt ++ "$" ++ secret).

Definition demo_verify (secret digest : string) : option bool :=
  if too_long secret then None
  else Some (ends_with ("$" ++ secret) digest).

Lemma demo_hash_raises salt secret :
  demo_hash salt secret = None <-> too_long secret = true.
Proof. unfold demo_hash. destruct (too_long secret); split; congruence. Qed.

Lemma demo_verify_raises secret digest :
  too_long secret = true -> demo_verify secret digest = None.
Proof. unfold demo_verify. now intros ->. Qed.

Lemma demo_verify_hash salt secret digest :
  demo_hash salt secret = Some digest -> demo_verify secret digest = Some true.
Proof.
  unfold demo_hash, demo_verify.
  destruct (too_long secret); [discriminate |].
  intros [= <-]. f_equal.
  apply (ends_with_app ("$pbkdf2-sha256$" ++ salt) ("$" ++ secret)).
Qed.

Lemma demo_hash_format salt secret digest :
  demo_hash salt secret = Some digest ->
  starts_with "$pbkdf2-sha256$" digest = true.
Proof.
  unfold demo_hash. destruct (too_long secret); [discriminate |].
  intros [= <-]. reflexivity.
Qed.

Definition demo_hasher : PasswordHasher :=
  {| pbkdf2_sha256_hash := demo_hash;
     pbkdf2_sha256_verify := demo_verify;
     hash_raises := demo_hash_raises;
     verify_raises := demo_verify_raises;
     verify_hash := demo_verify_hash;
     hash_format := demo_hash_format |}.

Module Sample.

Definition alice_form : Form :=
  [("name", "Alice"); ("email", " Alice@Example.org ");
   ("role", "mentee"); ("password", "correct horse")].

Definition bob_form : Form :=
  [("name", "Bob"); ("email", "bob@example.org");
   ("role", "mentor"); ("password", "battery staple")].

Definition carol_form : Form :=
  [("name", "Carol"); ("email", "carol@example.org");
   ("role", "mentor"); ("password", "tr0ub4dor")].

Definition alice : User.t :=
  User.mk 1 "Alice" "alice@example.org" "mentee" "" "" ""
          "$pbkdf2-sha256$s1$correct horse" 100.

Definition bob : User.t :=
  User.mk 2 "Bob" "bob@example.org" "mentor" "" "" ""
          "$pbkdf2-sha256$s2$battery staple" 110.

Definition carol : User.t :=
  User.mk 3 "Carol" "carol@example.org" "mentor" "" "" ""
          "$pbkdf2-sha256$s3$tr0ub4dor" 120.

(** Alice (mentee), Bob and Carol (mentors) have registered. *)
Definition registered : list Event :=
  [ Request None 100 (Register POST alice_form "s1");
    Request None 110 (Register POST bob_form "s2");
    Request None 120 (Register POST carol_form "s3") ].

(** Then Alice has asked Bob for a mentorship. *)
Definition requested : list Event :=
  registered ++
  [ Request (Some 1) 130
            (Mentorships POST [("mentor_id", "2"); ("goal", "learn X")]) ].

Definition learn_x : MentorshipRequest.t :=
  MentorshipRequest.mk 1 2 1 "learn X" "pending" 130.

Definition db_registered : Database :=
  mkDatabase [alice; bob; carol] [] [].

Definition db_requested : Database :=
  mkDatabase [alice; bob; carol] [learn_x] [].

End Sample.

(** The sample stores are the ones the sample runs produce. *)
Lemma sample_registered_run :
  run (hasher := demo_hasher) empty_db Sample.registered = Sample.db_registered.
Proof. reflexivity. Qed.

Lemma sample_requested_run :
  run (hasher := demo_hasher) empty_db Sample.requested = Sample.db_requested.
Proof. reflexivity. Qed.

(** ** Request ledger: who may change a status *)

Lemma find_map_status (rid : Z) (s : string) (rows : list MentorshipRequest.t) :
  find (fun r => MentorshipRequest.id r =? rid)
       (map (fun r => if MentorshipRequest.id r =? rid
                      then MentorshipRequest.set_status r s else r) rows)
  = option_map (fun r => MentorshipRequest.set_status r s)
               (find (fun r => MentorshipRequest.id r =? rid) rows).
Proof.
  induction rows as [| r rows IH]; simpl; [reflexivity |].
  destruct (MentorshipRequest.id r =? rid) eqn:E; simpl; rewrite E; auto.
Qed.

Lemma query_get_found_id {A : Type} (key : A -> Z) rows k row :
  query_get key rows k = Found row -> key row = k /\ In row rows.
Proof.
  unfold query_get.
  destruct (in_key_range k); [| discriminate].
  destruct (find _ rows) as [r |] eqn:F; [| discriminate].
  intros [= <-]. apply find_some in F. destruct F as [Hin Hk].
  split; [now apply Z.eqb_eq | exact Hin].
Qed.

Lemma query_get_update_status db rid s mentorship :
  query_get MentorshipRequest.id (mentorship_requests db) rid = Found mentorship ->
  query_get MentorshipRequest.id
            (mentorship_requests (update_status db rid s)) rid
  = Found (MentorshipRequest.set_status mentorship s).
Proof.
  unfold query_get, update_status; simpl.
  destruct (in_key_range rid); [| discriminate].
  rewrite find_map_status.
  destruct (find _ _); [| discriminate].
  now intros [= ->].
Qed.

Lemma unrelated_true current_user mentorship :
  User.id current_user <> MentorshipRequest.mentor_id mentorship ->
  User.id current_user <> MentorshipRequest.mentee_id mentorship ->
  unrelated current_user mentorship = true.
Proof.
  intros H1 H2. unfold unrelated.
  apply Z.eqb_neq in H1. apply Z.eqb_neq in H2. now rewrite H1, H2.
Qed.

Lemma unrelated_false current_user mentorship :
  User.id current_user = MentorshipRequest.mentor_id mentorship
  \/ User.id current_user = MentorshipRequest.mentee_id mentorship ->
  unrelated current_user mentorship = false.
Proof.
  intros H. unfold unrelated. apply negb_false_iff, orb_true_iff.
  destruct H as [H | H]; [left | right]; now apply Z.eqb_eq.
Qed.

(** C1. For a request that exists and a signed-in caller: when the
    caller is not the request's mentor, [accept_request] and
    [decline_request] answer with an AuthorizationError; when the caller
    is neither its mentor nor its mentee, so does [complete_request].
    In each of these failures the store is left as it was, so the
    request still has the status it had. *)
Theorem unauthorized_transition_rejected :
  forall (db : Database) (current_user : User.t) (request_id : Z)
         (mentorship : MentorshipRequest.t),
    query_get MentorshipRequest.id (mentorship_requests db) request_id
      = Found mentorship ->
    (User.id current_user <> MentorshipRequest.mentor_id mentorship ->
       (error_of (snd (accept_request current_user request_id db))
          = Some AuthorizationError
        /\ fst (accept_request current_user request_id db) = db)
       /\
       (error_of (snd (decline_request current_user request_id db))
          = Some AuthorizationError
        /\ fst (decline_request current_user request_id db) = db))
    /\
    (User.id current_user <> MentorshipRequest.mentor_id mentorship ->
     User.id current_user <> MentorshipRequest.mentee_id mentorship ->
       error_of (snd (complete_request current_user request_id db))
         = Some AuthorizationError
       /\ fst (complete_request current_user request_id db) = db).
Proof.
  intros db u rid r Hget.
  unfold accept_request, decline_request, complete_request, get_or_404.
  rewrite Hget. split.
  - intros Hne.
    assert (E : (MentorshipRequest.mentor_id r =? User.id u) = false)
      by (apply Z.eqb_neq; congruence).
    rewrite E; simpl. repeat split; reflexivity.
  - intros Hmentor Hmentee.
    rewrite (unrelated_true _ _ Hmentor Hmentee); simpl. split; reflexivity.
Qed.

(** Carol, a mentor but not the mentor of Alice's request, is refused
    by all three operations and the request stays pending. *)
Lemma unauthorized_transition_rejected_witness :
  (error_of (snd (accept_request Sample.carol 1 Sample.db_requested))
     = Some AuthorizationError
   /\ fst (accept_request Sample.carol 1 Sample.db_requested) = Sample.db_requested)
  /\ (error_of (snd (decline_request Sample.carol 1 Sample.db_requested))
        = Some AuthorizationError
      /\ fst (decline_request Sample.carol 1 Sample.db_requested) = Sample.db_requested)
  /\ (error_of (snd (complete_request Sample.carol 1 Sample.db_requested))
        = Some AuthorizationError
      /\ fst (complete_request Sample.carol 1 Sample.db_requested) = Sample.db_requested).
Proof.
  destruct (unauthorized_transition_rejected
              Sample.db_requested Sample.carol 1 Sample.learn_x eq_refl)
    as [Hmentor Hboth].
  assert (N2 : User.id Sample.carol <> MentorshipRequest.mentor_id Sample.learn_x)
    by discriminate.
  assert (N1 : User.id Sample.carol <> MentorshipRequest.mentee_id Sample.learn_x)
    by discriminate.
  destruct (Hmentor N2) as [Ha Hd].
  exact (conj Ha (conj Hd (Hboth N2 N1))).
Defined.

(** C2. For a request that exists: when the caller is its mentor,
    [accept_request] and [decline_request] succeed and the request is
    then stored with status accepted, respectively declined; when the
    caller is its mentor or its mentee, [complete_request] succeeds and
    the request is then stored with status completed.  In each case the
    other columns of the request are the ones it had.  Nothing is asked
    of the status the request had: a declined or completed request is
    accepted again all the same. *)
Theorem authorized_transition_unconditional :
  forall (db : Database) (current_user : User.t) (request_id : Z)
         (mentorship : MentorshipRequest.t),
    query_get MentorshipRequest.id (mentorship_requests db) request_id
      = Found mentorship ->
    let stored (status : string) :=
      Found (MentorshipRequest.mk (MentorshipRequest.id mentorship)
                                  (MentorshipRequest.mentor_id mentorship)
                                  (MentorshipRequest.mentee_id mentorship)
                                  (MentorshipRequest.goal mentorship)
                                  status
                                  (MentorshipRequest.created_at mentorship)) in
    (User.id current_user = MentorshipRequest.mentor_id mentorship ->
       (snd (accept_request current_user request_id db)
        = respond "Mentorship accepted. Start collaborating!" "success"
                  (Redirect to_mentorships)
        /\ query_get MentorshipRequest.id
             (mentorship_requests (fst (accept_request current_user request_id db)))
             request_id
           = stored "accepted")
       /\
       (snd (decline_request current_user request_id db)
        = respond "Request declined." "info" (Redirect to_mentorships)
        /\ query_get MentorshipRequest.id
             (mentorship_requests (fst (decline_request current_user request_id db)))
             request_id
           = stored "declined"))
    /\
    (User.id current_user = MentorshipRequest.mentor_id mentorship
     \/ User.id current_user = MentorshipRequest.mentee_id mentorship ->
       snd (complete_request current_user request_id db)
       = respond "Mentorship marked as completed." "success"
                 (Redirect to_mentorships)
       /\ query_get MentorshipRequest.id
            (mentorship_requests (fst (complete_request current_user request_id db)))
            request_id
          = stored "completed").
Proof.
  intros db u rid r Hget stored.
  destruct (query_get_found_id _ _ _ _ Hget) as [Hid _].
  unfold accept_request, decline_request, complete_request, get_or_404.
  rewrite Hget, Hid. split.
  - intros Heq.
    assert (E : (MentorshipRequest.mentor_id r =? User.id u) = true)
      by (apply Z.eqb_eq; congruence).
    rewrite E; cbn [negb fst snd].
    repeat split; now rewrite (query_get_update_status _ _ _ _ Hget).
  - intros Hpart.
    rewrite (unrelated_false _ _ Hpart); cbn [fst snd].
    split; [reflexivity | now rewrite (query_get_update_status _ _ _ _ Hget)].
Qed.

(** Bob accepts the request he had declined: it is stored accepted.
    Alice, the mentee, marks a declined request completed: it is stored
    completed. *)
Lemma authorized_transition_unconditional_witness :
  let declined := MentorshipRequest.mk 1 2 1 "learn X" "declined" 130 in
  let db := mkDatabase [Sample.alice; Sample.bob; Sample.carol] [declined] [] in
  query_get MentorshipRequest.id
    (mentorship_requests (fst (accept_request Sample.bob 1 db))) 1
  = Found (MentorshipRequest.mk 1 2 1 "learn X" "accepted" 130)
  /\ query_get MentorshipRequest.id
       (mentorship_requests (fst (complete_request Sample.alice 1 db))) 1
     = Found (MentorshipRequest.mk 1 2 1 "learn X" "completed" 130).
Proof.
  intros declined db.
  destruct (authorized_transition_unconditional db Sample.bob 1 declined eq_refl)
    as [Hmentor _].
  destruct (authorized_transition_unconditional db Sample.alice 1 declined eq_refl)
    as [_ Hpart].
  destruct (Hmentor eq_refl) as [[_ Ha] _].
  destruct (Hpart (or_intror eq_refl)) as [_ Hc].
  exact (conj Ha Hc).
Defined.

(** ** Request ledger: creation *)

Lemma truthy_false (s : string) : Py.truthy s = false <-> s = "".
Proof. destruct s; simpl; split; congruence. Qed.

Lemma truthy_true (s : string) : Py.truthy s = true <-> s <> "".
Proof. destruct s; simpl; split; congruence. Qed.

Lemma string_eqb_false (a b : string) : a <> b -> String.eqb a b = false.
Proof. intros H. now apply String.eqb_neq. Qed.

(** The response of a created request. *)
Definition created : Response :=
  respond "Mentorship request created." "success" (Redirect to_mentorships).

(** Against C3 as the specification words it: the wording does not
    survive the order of the checks in [mentorships].  Bob is a mentor, not a mentee: with
    a blank goal he is answered with a ValidationError, not an
    AuthorizationError; with a goal and a mentor_id that names no user
    he is answered with an AuthorizationError, not a ValidationError. *)
Lemma create_checks_order_counterexample :
  User.role Sample.bob <> "mentee"
  /\ error_of (snd (mentorships Sample.bob POST
                      [("mentor_id", "3"); ("goal", "   ")] 140
                      Sample.db_registered))
     = Some ValidationError
  /\ query_get User.id (users Sample.db_registered) 99 = Missing
  /\ error_of (snd (mentorships Sample.bob POST
                      [("mentor_id", "99"); ("goal", "learn X")] 140
                      Sample.db_registered))
     = Some AuthorizationError.
Proof. repeat split; try reflexivity. discriminate. Qed.

(** C3, amended to the order of the checks.  [mentorships] on a POST:
    - answers with a ValidationError when mentor_id is missing or empty
      or the goal is blank after trimming, whatever the caller's role;
    - otherwise answers with an AuthorizationError unless the caller's
      role is mentee;
    - otherwise, for a mentor_id that reads as a key of the store,
      answers with a ValidationError when no user has that key or that
      user's role is not mentor;
    - otherwise creates the request.
    A failure leaves the store as it was; a creation appends exactly one
    request, pending, from the caller to that mentor, and touches
    nothing else. *)
Theorem create_request_checks :
  forall (db : Database) (current_user : User.t) (form : Form) (now : Z),
    let mentor_id := form_get form "mentor_id" in
    let goal := Py.strip (form_get_or form "goal" "") in
    let result := mentorships current_user POST form now db in
    (Py.truthy_opt mentor_id = false \/ goal = "" ->
       error_of (snd result) = Some ValidationError /\ fst result = db)
    /\
    (Py.truthy_opt mentor_id = true -> goal <> "" ->
     User.role current_user <> "mentee" ->
       error_of (snd result) = Some AuthorizationError /\ fst result = db)
    /\
    (forall s k,
       mentor_id = Some s -> s <> "" -> goal <> "" ->
       User.role current_user = "mentee" ->
       Py.int s = Some k -> in_key_range k = true ->
       (forall mentor, query_get User.id (users db) k = Found mentor ->
                       User.role mentor <> "mentor") ->
       error_of (snd result) = Some ValidationError /\ fst result = db)
    /\
    (forall s k mentor,
       mentor_id = Some s -> s <> "" -> goal <> "" ->
       User.role current_user = "mentee" ->
       Py.int s = Some k ->
       query_get User.id (users db) k = Found mentor ->
       User.role mentor = "mentor" ->
       snd result = created)
    /\
    (snd result = created ->
       exists r,
         fst result = mkDatabase (users db) (mentorship_requests db ++ [r])
                                 (messages db)
         /\ MentorshipRequest.status r = "pending"
         /\ MentorshipRequest.mentee_id r = User.id current_user
         /\ MentorshipRequest.goal r = goal
         /\ query_get User.id (users db) (MentorshipRequest.mentor_id r)
            <> Missing)
    /\
    (snd result <> created -> fst result = db).
Proof.
  intros db u form now mentor_id goal result.
  subst result. unfold mentorships. fold mentor_id. fold goal.
  split; [| split; [| split; [| split; [| split]]]].
  - intros [H | H].
    + rewrite H. split; reflexivity.
    + apply truthy_false in H. rewrite H, orb_true_r. split; reflexivity.
  - intros Hid Hgoal Hrole. apply truthy_true in Hgoal.
    rewrite Hid, Hgoal. simpl.
    rewrite (string_eqb_false _ _ Hrole). split; reflexivity.
  - intros s k Hs Hne Hgoal Hrole Hint Hrange Hnone.
    apply truthy_true in Hne, Hgoal.
    rewrite Hs, Hgoal, Hrole. simpl. rewrite Hne. simpl.
    rewrite Hint.
    destruct (query_get User.id (users db) k) as [mentor | |] eqn:Hget.
    + rewrite (string_eqb_false _ _ (Hnone mentor eq_refl)).
      split; reflexivity.
    + split; reflexivity.
    + unfold query_get in Hget. rewrite Hrange in Hget.
      destruct (find _ _); discriminate.
  - intros s k mentor Hs Hne Hgoal Hrole Hint Hget Hmentor.
    apply truthy_true in Hne, Hgoal.
    rewrite Hs, Hgoal, Hrole. simpl. rewrite Hne. simpl.
    rewrite Hint, Hget, Hmentor. reflexivity.
  - destruct (negb (Py.truthy_opt mentor_id) || negb (Py.truthy goal));
      [discriminate |].
    destruct (negb (User.role u =? "mentee")%string); [discriminate |].
    destruct (Py.int _) as [k |]; [| discriminate].
    destruct (query_get User.id (users db) k) as [mentor | |] eqn:Hget;
      try discriminate.
    destruct (User.role mentor =? "mentor")%string; [| discriminate].
    intros _. eexists. split; [reflexivity |]. simpl.
    repeat split.
    destruct (query_get_found_id _ _ _ _ Hget) as [Hk _].
    rewrite Hk, Hget. discriminate.
  - destruct (negb (Py.truthy_opt mentor_id) || negb (Py.truthy goal));
      [reflexivity |].
    destruct (negb (User.role u =? "mentee")%string); [reflexivity |].
    destruct (Py.int _) as [k |]; [| reflexivity].
    destruct (query_get User.id (users db) k) as [mentor | |];
      try reflexivity.
    destruct (User.role mentor =? "mentor")%string; [| reflexivity].
    intros H. now elim H.
Qed.

(** Alice, a mentee, asks Bob, a mentor, with a goal: the request is
    created and the store is the sample store with her request. *)
Lemma create_request_checks_witness :
  snd (mentorships Sample.alice POST
         [("mentor_id", "2"); ("goal", "learn X")] 130 Sample.db_registered)
  = created
  /\ fst (mentorships Sample.alice POST
            [("mentor_id", "2"); ("goal", "learn X")] 130 Sample.db_registered)
     = Sample.db_requested.
Proof.
  destruct (create_request_checks Sample.db_registered Sample.alice
              [("mentor_id", "2"); ("goal", "learn X")] 130)
    as (_ & _ & _ & Hok & _ & _).
  split.
  - apply (Hok "2" 2 Sample.bob); try reflexivity; discriminate.
  - reflexivity.
Defined.

(** What a creation did, read back from its response. *)
Lemma mentorships_created_inv db current_user form now :
  snd (mentorships current_user POST form now db) = created ->
  exists mentor,
    fst (mentorships current_user POST form now db)
    = add_mentorship db (User.id mentor) (User.id current_user)
                     (Py.strip (form_get_or form "goal" "")) now
    /\ In mentor (users db) /\ User.role mentor = "mentor".
Proof.
  unfold mentorships.
  destruct (negb (Py.truthy_opt (form_get form "mentor_id"))
            || negb (Py.truthy (Py.strip (form_get_or form "goal" ""))));
    [discriminate |].
  destruct (negb (User.role current_user =? "mentee")%string); [discriminate |].
  destruct (Py.int _) as [k |]; [| discriminate].
  destruct (query_get User.id (users db) k) as [mentor | |] eqn:Hget;
    try discriminate.
  destruct (User.role mentor =? "mentor")%string eqn:Hrole; [| discriminate].
  intros _. exists mentor. split; [reflexivity |]. split.
  - now destruct (query_get_found_id _ _ _ _ Hget).
  - now apply String.eqb_eq.
Qed.

(** C10. A request created through [mentorships] has the caller as its
    mentee.  The handler reads mentor_id and goal from the form and
    nothing else: two forms that agree on these two fields are served
    alike, so no field of the form can name another mentee. *)
Theorem created_request_mentee_is_caller :
  forall (db : Database) (current_user : User.t) (form : Form) (now : Z),
    (snd (mentorships current_user POST form now db) = created ->
       exists r,
         mentorship_requests (fst (mentorships current_user POST form now db))
         = (mentorship_requests db ++ [r])%list
         /\ MentorshipRequest.mentee_id r = User.id current_user)
    /\
    (forall form' : Form,
       form_get form' "mentor_id" = form_get form "mentor_id" ->
       form_get form' "goal" = form_get form "goal" ->
       mentorships current_user POST form' now db
       = mentorships current_user POST form now db).
Proof.
  intros db u form now. split.
  - intros Hcreated.
    destruct (mentorships_created_inv _ _ _ _ Hcreated) as (mentor & Hdb & _).
    rewrite Hdb. eexists. split; reflexivity.
  - intros form' Hid Hgoal.
    unfold mentorships, form_get_or. now rewrite Hid, Hgoal.
Qed.

(** Alice's form names Bob as the mentee and Carol as the mentor: the
    field is ignored and the request is Alice's. *)
Lemma created_request_mentee_is_caller_witness :
  exists r,
    mentorship_requests
      (fst (mentorships Sample.alice POST
              [("mentee_id", "2"); ("mentor_id", "3"); ("goal", "learn Y")]
              140 Sample.db_requested))
    = (mentorship_requests Sample.db_requested ++ [r])%list
    /\ MentorshipRequest.mentee_id r = 1.
Proof.
  exact (proj1 (created_request_mentee_is_caller Sample.db_requested Sample.alice
                  [("mentee_id", "2"); ("mentor_id", "3"); ("goal", "learn Y")]
                  140) eq_refl).
Defined.

(** ** Ordered listings *)

Section Ordering.
Context {A : Type} (key : A -> Z).

Lemma insert_asc_perm x l : Permutation (insert_asc key x l) (x :: l).
Proof.
  induction l as [| y l IH]; simpl; [reflexivity |].
  destruct (key x <=? key y); [reflexivity |].
  rewrite IH. apply perm_swap.
Qed.

Lemma order_by_asc_perm l : Permutation (order_by_asc key l) l.
Proof.
  induction l as [| x l IH]; simpl; [reflexivity |].
  rewrite insert_asc_perm. now constructor.
Qed.

Lemma insert_desc_perm x l : Permutation (insert_desc key x l) (x :: l).
Proof.
  induction l as [| y l IH]; simpl; [reflexivity |].
  destruct (key y <=? key x); [reflexivity |].
  rewrite IH. apply perm_swap.
Qed.

Lemma order_by_desc_perm l : Permutation (order_by_desc key l) l.
Proof.
  induction l as [| x l IH]; simpl; [reflexivity |].
  rewrite insert_desc_perm. now constructor.
Qed.

Lemma insert_asc_sorted x l :
  Sorted Z.le (map key l) -> Sorted Z.le (map key (insert_asc key x l)).
Proof.
  induction l as [| y l IH]; simpl; intros Hs.
  - repeat constructor.
  - destruct (Z.leb_spec (key x) (key y)) as [Hle | Hgt]; simpl.
    + constructor; [exact Hs | now constructor].
    + inversion Hs as [| ? ? Hs' Hhd]; subst.
      constructor; [now apply IH |].
      destruct l as [| z l]; simpl.
      * constructor. lia.
      * destruct (Z.leb_spec (key x) (key z)); simpl; constructor.
        -- lia.
        -- now inversion Hhd.
Qed.

Lemma order_by_asc_sorted l : Sorted Z.le (map key (order_by_asc key l)).
Proof.
  induction l as [| x l IH]; simpl; [constructor |].
  now apply insert_asc_sorted.
Qed.

Lemma insert_desc_sorted x l :
  Sorted Z.ge (map key l) -> Sorted Z.ge (map key (insert_desc key x l)).
Proof.
  induction l as [| y l IH]; simpl; intros Hs.
  - repeat constructor.
  - destruct (Z.leb_spec (key y) (key x)) as [Hle | Hgt]; simpl.
    + constructor; [exact Hs | constructor; lia].
    + inversion Hs as [| ? ? Hs' Hhd]; subst.
      constructor; [now apply IH |].
      destruct l as [| z l]; simpl.
      * constructor. lia.
      * destruct (Z.leb_spec (key z) (key x)); simpl; constructor.
        -- lia.
        -- now inversion Hhd.
Qed.

Lemma order_by_desc_sorted l : Sorted Z.ge (map key (order_by_desc key l)).
Proof.
  induction l as [| x l IH]; simpl; [constructor |].
  now apply insert_desc_sorted.
Qed.

(** Rows that already come in ascending order are listed as they
    come. *)
Lemma order_by_asc_fixed l :
  Sorted Z.le (map key l) -> order_by_asc key l = l.
Proof.
  induction l as [| x l IH]; simpl; intros Hs; [reflexivity |].
  inversion Hs as [| ? ? Hs' Hhd]; subst.
  rewrite (IH Hs').
  destruct l as [| y l]; simpl; [reflexivity |].
  inversion Hhd; subst.
  destruct (Z.leb_spec (key x) (key y)); [reflexivity | lia].
Qed.

End Ordering.

(** C6. The listing that [mentorships] and [dashboard] render for a user
    holds exactly the requests of the store in which that user is the
    mentor or the mentee, each as often as the store holds it, and runs
    from the most recent creation time to the oldest. *)
Theorem requests_listing :
  forall (db : Database) (current_user : User.t) (form : Form) (now : Z),
    (exists mentors,
        snd (mentorships current_user GET form now db)
        = quiet (Render (mentorships_html
                           mentors (requests_of db (User.id current_user)))))
    /\ (exists mentors mentees stats,
           snd (dashboard current_user db)
           = quiet (Render (dashboard_html
                              mentors mentees
                              (requests_of db (User.id current_user)) stats)))
    /\ Permutation
         (requests_of db (User.id current_user))
         (filter (fun r => (MentorshipRequest.mentor_id r =? User.id current_user)
                           || (MentorshipRequest.mentee_id r =? User.id current_user))
                 (mentorship_requests db))
    /\ (forall r,
           In r (requests_of db (User.id current_user))
           <-> In r (mentorship_requests db)
               /\ (MentorshipRequest.mentor_id r = User.id current_user
                   \/ MentorshipRequest.mentee_id r = User.id current_user))
    /\ Sorted Z.ge (map MentorshipRequest.created_at
                        (requests_of db (User.id current_user))).
Proof.
  intros db u form now. split; [| split; [| split; [| split]]].
  - eexists. reflexivity.
  - do 3 eexists. reflexivity.
  - apply order_by_desc_perm.
  - intros r. unfold requests_of. split.
    + intros Hin.
      apply (Permutation_in _ (order_by_desc_perm _ _)) in Hin.
      apply filter_In in Hin. destruct Hin as [Hin Hb].
      split; [exact Hin |].
      apply orb_true_iff in Hb. destruct Hb as [Hb | Hb];
        [left | right]; now apply Z.eqb_eq.
    + intros [Hin Hpart].
      apply (Permutation_in _ (Permutation_sym (order_by_desc_perm _ _))).
      apply filter_In. split; [exact Hin |].
      apply orb_true_iff. destruct Hpart as [H | H];
        [left | right]; now apply Z.eqb_eq.
  - apply order_by_desc_sorted.
Qed.

(** ** Message log *)

(** C8. For a request that exists, a POST to [mentorship_messages]
    answers with an AuthorizationError when the caller is neither its
    mentor nor its mentee, and, for a participant, with a
    ValidationError when the body is empty after trimming.  In both
    cases the store is left as it was: no message row is added. *)
Theorem post_rejected :
  forall (db : Database) (current_user : User.t) (request_id : Z)
         (mentorship : MentorshipRequest.t) (form : Form) (now : Z),
    query_get MentorshipRequest.id (mentorship_requests db) request_id
      = Found mentorship ->
    let result := mentorship_messages current_user POST request_id form now db in
    (User.id current_user <> MentorshipRequest.mentor_id mentorship ->
     User.id current_user <> MentorshipRequest.mentee_id mentorship ->
       error_of (snd result) = Some AuthorizationError /\ fst result = db)
    /\
    (User.id current_user = MentorshipRequest.mentor_id mentorship
     \/ User.id current_user = MentorshipRequest.mentee_id mentorship ->
     Py.strip (form_get_or form "body" "") = "" ->
       error_of (snd result) = Some ValidationError /\ fst result = db).
Proof.
  intros db u rid r form now Hget result. subst result.
  unfold mentorship_messages, get_or_404. rewrite Hget. split.
  - intros H1 H2. rewrite (unrelated_true _ _ H1 H2). split; reflexivity.
  - intros Hpart Hblank. rewrite (unrelated_false _ _ Hpart), Hblank.
    split; reflexivity.
Qed.

(** Carol is no party to Alice's request; Alice is, but sends blanks. *)
Lemma post_rejected_witness :
  (error_of (snd (mentorship_messages Sample.carol POST 1 [("body", "hi")] 140
                    Sample.db_requested))
     = Some AuthorizationError
   /\ fst (mentorship_messages Sample.carol POST 1 [("body", "hi")] 140
             Sample.db_requested) = Sample.db_requested)
  /\ (error_of (snd (mentorship_messages Sample.alice POST 1 [("body", "  ")] 140
                       Sample.db_requested))
        = Some ValidationError
      /\ fst (mentorship_messages Sample.alice POST 1 [("body", "  ")] 140
                Sample.db_requested) = Sample.db_requested).
Proof.
  split.
  - apply (post_rejected Sample.db_requested Sample.carol 1 Sample.learn_x
             [("body", "hi")] 140 eq_refl); discriminate.
  - apply (post_rejected Sample.db_requested Sample.alice 1 Sample.learn_x
             [("body", "  ")] 140 eq_refl); [right |]; reflexivity.
Defined.

(** A post to the chat of a request: the caller, the form and the
    reading of the clock while it is served. *)
Definition Post := (User.t * Form * Z)%type.

Definition post (request_id : Z) (db : Database) (p : Post) : Database :=
  let '(current_user, form, now) := p in
  fst (mentorship_messages current_user POST request_id form now db).

(** What a post is to leave in the log: sender, trimmed body, time. *)
Definition posted (p : Post) : Z * string * Z :=
  let '(current_user, form, now) := p in
  (User.id current_user, Py.strip (form_get_or form "body" ""), now).

Definition entry (m : Message.t) : Z * string * Z :=
  (Message.sender_id m, Message.body m, Message.created_at m).

(** A post the handler takes: by a participant, with a body that is
    not blank. *)
Definition admissible (mentorship : MentorshipRequest.t) (p : Post) : Prop :=
  let '(current_user, form, _) := p in
  (User.id current_user = MentorshipRequest.mentor_id mentorship
   \/ User.id current_user = MentorshipRequest.mentee_id mentorship)
  /\ Py.strip (form_get_or form "body" "") <> "".

Definition clock (p : Post) : Z := snd p.

Lemma messages_of_add_message db rid sender body now :
  messages_of (add_message db rid sender body now) rid
  = (messages_of db rid
     ++ [Message.mk (next_id Message.id (messages db)) rid sender body now])%list.
Proof.
  unfold messages_of, add_message; simpl.
  rewrite filter_app; simpl. now rewrite Z.eqb_refl.
Qed.

Lemma post_admissible db rid mentorship p :
  query_get MentorshipRequest.id (mentorship_requests db) rid = Found mentorship ->
  admissible mentorship p ->
  post rid db p
  = add_message db rid (fst (fst (posted p))) (snd (fst (posted p))) (clock p).
Proof.
  destruct p as [[u form] now]. intros Hget [Hpart Hbody].
  destruct (query_get_found_id _ _ _ _ Hget) as [Hid _].
  unfold post, mentorship_messages, get_or_404. rewrite Hget.
  rewrite (unrelated_false _ _ Hpart).
  apply truthy_true in Hbody. rewrite Hbody, Hid. reflexivity.
Qed.

Lemma posts_entries rid mentorship posts :
  forall db,
    query_get MentorshipRequest.id (mentorship_requests db) rid = Found mentorship ->
    Forall (admissible mentorship) posts ->
    map entry (messages_of (fold_left (post rid) posts db) rid)
    = (map entry (messages_of db rid) ++ map posted posts)%list.
Proof.
  induction posts as [| p posts IH]; intros db Hget Hall; simpl.
  - now rewrite app_nil_r.
  - inversion Hall as [| ? ? Hp Hrest]; subst.
    rewrite (post_admissible _ _ _ _ Hget Hp).
    rewrite IH; [| exact Hget | exact Hrest].
    rewrite messages_of_add_message, map_app, <- app_assoc. simpl.
    destruct p as [[u form] now]. reflexivity.
Qed.

Lemma entry_created_at l :
  map Message.created_at l = map snd (map entry l).
Proof. rewrite map_map. reflexivity. Qed.

Lemma posted_clock posts : map snd (map posted posts) = map clock posts.
Proof.
  rewrite map_map. apply map_ext. now intros [[u form] now].
Qed.

Ltac split_cases :=
  repeat match goal with
         | |- context [match ?x with _ => _ end] =>
             lazymatch x with
             | context [match _ with _ => _ end] => fail
             | _ => destruct x
             end
         end.

(** Serving a request never rewrites or drops a row of [message]: the
    table after is the table before, with at most new rows behind it. *)
Lemma step_messages_append {hasher : PasswordHasher} db session now a :
  exists l, messages (fst (step db session now a)) = (messages db ++ l)%list.
Proof.
  destruct a; unfold step, login_required, index, register, set_password, add_user, login,
    logout, dashboard, edit_profile, mentorships, accept_request,
    decline_request, complete_request, mentorship_messages, get_or_404;
    split_cases; simpl;
    eexists; first [symmetry; apply app_nil_r | reflexivity].
Qed.

(** Against C7 as the specification words it: the wording fails when
    the server clock steps back between two posts: Alice's "hi" is stored at 200 and
    Bob's "hello" after it at 150; the log holds them in that order and
    the page lists Bob's first. *)
Lemma chat_order_counterexample :
  let db1 := post 1 Sample.db_requested (Sample.alice, [("body", "hi")], 200) in
  let db2 := post 1 db1 (Sample.bob, [("body", "hello")], 150) in
  map Message.body (messages_of db2 1) = ["hi"; "hello"]
  /\ map Message.body (chat_of db2 1) = ["hello"; "hi"]
  /\ snd (mentorship_messages Sample.alice GET 1 [] 300 db2)
     = quiet (Render (messages_html Sample.learn_x
                        [Message.mk 2 1 2 "hello" 150; Message.mk 1 1 1 "hi" 200])).
Proof. repeat split. Qed.

(** C7, amended by the reading of the clock.  Let a request exist with
    no message yet, and let N posts be made to it, each by a participant
    with a body that is not blank.  Then the log of the request holds
    exactly these N messages in the order they were posted; the page
    lists N messages, the same ones, by ascending creation time; and
    the listing is the order of posting whenever the clock readings of
    the successive posts do not decrease.  No request served by the
    application rewrites or drops a message, and the deletion of a
    request drops the messages of that request only. *)
Theorem chat_after_posts :
  forall {hasher : PasswordHasher}
         (db : Database) (request_id : Z) (mentorship : MentorshipRequest.t)
         (posts : list Post),
    query_get MentorshipRequest.id (mentorship_requests db) request_id
      = Found mentorship ->
    messages_of db request_id = [] ->
    Forall (admissible mentorship) posts ->
    let db' := fold_left (post request_id) posts db in
    map entry (messages_of db' request_id) = map posted posts
    /\ List.length (chat_of db' request_id) = List.length posts
    /\ Permutation (chat_of db' request_id) (messages_of db' request_id)
    /\ Sorted Z.le (map Message.created_at (chat_of db' request_id))
    /\ (Sorted Z.le (map clock posts) ->
          chat_of db' request_id = messages_of db' request_id)
    /\ (forall db0 session now a,
          exists l, messages (fst (step db0 session now a))
                    = (messages db0 ++ l)%list)
    /\ (forall db0 rid,
          messages (delete_mentorship db0 rid)
          = filter (fun m => negb (Message.mentorship_id m =? rid))
                   (messages db0)).
Proof.
  intros hasher db rid r posts Hget Hempty Hall db'.
  assert (Hentries : map entry (messages_of db' rid) = map posted posts).
  { subst db'. rewrite (posts_entries _ _ _ _ Hget Hall), Hempty. reflexivity. }
  split; [exact Hentries |].
  split.
  { unfold chat_of.
    rewrite (Permutation_length (order_by_asc_perm _ _)).
    rewrite <- (length_map entry), Hentries. apply length_map. }
  split; [apply order_by_asc_perm |].
  split; [apply order_by_asc_sorted |].
  split.
  { intros Hclock. apply order_by_asc_fixed.
    now rewrite entry_created_at, Hentries, posted_clock. }
  split.
  - intros. apply step_messages_append.
  - reflexivity.
Qed.

(** Alice says "hi" at 200 and Bob answers "hello" at 210: the page
    lists both in that order. *)
Lemma chat_after_posts_witness :
  let posts := [(Sample.alice, [("body", "hi")], 200);
                (Sample.bob, [("body", " hello ")], 210)] in
  let db' := fold_left (post 1) posts Sample.db_requested in
  map Message.body (chat_of db' 1) = ["hi"; "hello"]
  /\ List.length (chat_of db' 1) = 2%nat
  /\ chat_of db' 1 = messages_of db' 1.
Proof.
  intros posts db'.
  assert (Hall : Forall (admissible Sample.learn_x) posts).
  { constructor; [| constructor; [| constructor]].
    - split; [right; reflexivity | discriminate].
    - split; [left; reflexivity | discriminate]. }
  assert (Hclock : Sorted Z.le (map clock posts)).
  { repeat constructor. simpl. discriminate. }
  destruct (chat_after_posts (hasher := demo_hasher) Sample.db_requested 1
              Sample.learn_x posts eq_refl eq_refl Hall)
    as (_ & Hlen & _ & _ & Horder & _).
  exact (conj eq_refl (conj Hlen (Horder Hclock))).
Defined.

(** ** Deleting a request *)

Lemma filter_other_request (rid rid' : Z) (l : list Message.t) :
  rid' <> rid ->
  filter (fun m => Message.mentorship_id m =? rid')
         (filter (fun m => negb (Message.mentorship_id m =? rid)) l)
  = filter (fun m => Message.mentorship_id m =? rid') l.
Proof.
  intros Hne. induction l as [| m l IH]; simpl; [reflexivity |].
  destruct (Message.mentorship_id m =? rid) eqn:E; simpl.
  - apply Z.eqb_eq in E.
    assert (E' : (Message.mentorship_id m =? rid') = false)
      by (apply Z.eqb_neq; congruence).
    now rewrite E'.
  - destruct (Message.mentorship_id m =? rid'); now rewrite IH.
Qed.

Lemma filter_same_request (rid : Z) (l : list Message.t) :
  filter (fun m => Message.mentorship_id m =? rid)
         (filter (fun m => negb (Message.mentorship_id m =? rid)) l)
  = [].
Proof.
  induction l as [| m l IH]; simpl; [reflexivity |].
  destruct (Message.mentorship_id m =? rid) eqn:E; simpl; [exact IH |].
  now rewrite E.
Qed.

(** ** Credential store *)

Lemma lower_char_idempotent (c : ascii) :
  Py.lower_char (Py.lower_char c) = Py.lower_char c.
Proof. destruct c as [[] [] [] [] [] [] [] []]; reflexivity. Qed.

Lemma lower_idempotent (s : string) : Py.lower (Py.lower s) = Py.lower s.
Proof.
  induction s as [| c s IH]; simpl; [reflexivity |].
  now rewrite lower_char_idempotent, IH.
Qed.

Lemma lower_empty (s : string) : Py.lower s = "" <-> s = "".
Proof. destruct s; simpl; split; congruence. Qed.

(** What identifies an account: these columns are written once, at
    registration. *)
Definition account (u : User.t) : Z * string * string * string :=
  (User.id u, User.email u, User.role u, User.password_hash u).

(** Every stored email is in lower case. *)
Definition emails_lowered (l : list User.t) : Prop :=
  Forall (fun u => Py.lower (User.email u) = User.email u) l.

(** The response of a registration, and of a login, as user [uid]. *)
Definition welcome (uid : Z) : Response :=
  mkResponse (Some ("Welcome to the mentorship community!", "success"))
             (Redirect to_dashboard) (LoginAs uid).

Definition signed_in (uid : Z) : Response :=
  mkResponse (Some ("Successfully signed in.", "success"))
             (Redirect to_dashboard) (LoginAs uid).

Section Credentials.
Context {hasher : PasswordHasher}.

(** Whatever happens, the user table keeps its rows, each with the
    account it had, and grows at most by rows with a lowered email. *)
Lemma apply_event_users db e :
  exists f l,
    users (apply_event db e) = (map f (users db) ++ l)%list
    /\ (forall u, account (f u) = account u)
    /\ emails_lowered l.
Proof.
  destruct e as [session now a | rid]; [| exists (fun u => u), [];
    simpl; rewrite map_id, app_nil_r; repeat split; constructor].
  destruct a; unfold apply_event, step, login_required, index, register,
    set_password, add_user, login, logout, dashboard, edit_profile, mentorships,
    accept_request, decline_request, complete_request, mentorship_messages,
    get_or_404;
    split_cases; simpl;
    first
      [ exists (fun u => u), [];
        split; [now rewrite map_id, app_nil_r |];
        split; [reflexivity | constructor]
      | eexists (fun u => u), [_];
        split; [rewrite map_id; reflexivity |];
        split; [reflexivity |];
        constructor; [simpl; apply lower_idempotent | constructor]
      | eexists _, [];
        split; [rewrite app_nil_r; reflexivity |];
        split; [intros u; simpl; now destruct (User.id u =? _) | constructor] ].
Qed.

Lemma find_email_map (f : User.t -> User.t) (e : string) (l : list User.t) :
  (forall u, account (f u) = account u) ->
  find (fun u => String.eqb (User.email u) e) (map f l)
  = option_map f (find (fun u => String.eqb (User.email u) e) l).
Proof.
  intros Hf. induction l as [| u l IH]; simpl; [reflexivity |].
  assert (He : User.email (f u) = User.email u)
    by (specialize (Hf u); unfold account in Hf; congruence).
  rewrite He. destruct (String.eqb (User.email u) e); [reflexivity | exact IH].
Qed.

Lemma find_app_some {A : Type} (p : A -> bool) (l1 l2 : list A) (x : A) :
  find p l1 = Some x -> find p (l1 ++ l2) = Some x.
Proof.
  induction l1 as [| y l1 IH]; simpl; [discriminate |].
  destruct (p y); [trivial | exact IH].
Qed.

(** An account found by its email is found again, the same account,
    after any run. *)
Lemma run_keeps_account events :
  forall db e u,
    first_by_email db e = Some u ->
    exists u', first_by_email (run db events) e = Some u'
               /\ account u' = account u.
Proof.
  induction events as [| ev events IH]; intros db e u Hfind; simpl.
  - exists u. split; [exact Hfind | reflexivity].
  - destruct (apply_event_users db ev) as (f & l & Husers & Hf & _).
    assert (Hnext : first_by_email (apply_event db ev) e = Some (f u)).
    { unfold first_by_email in *. rewrite Husers.
      apply find_app_some. rewrite (find_email_map _ _ _ Hf), Hfind.
      reflexivity. }
    destruct (IH _ _ _ Hnext) as (u' & Hfind' & Hacc).
    exists u'. split; [exact Hfind' | now rewrite Hacc].
Qed.

Lemma reachable_emails_lowered db : reachable db -> emails_lowered (users db).
Proof.
  intros [events ->]. unfold run.
  assert (H : forall db0, emails_lowered (users db0) ->
                          emails_lowered (users (fold_left apply_event events db0))).
  { induction events as [| ev events IH]; intros db0 H0; simpl; [exact H0 |].
    apply IH.
    destruct (apply_event_users db0 ev) as (f & l & Husers & Hf & Hl).
    rewrite Husers. apply Forall_app. split; [| exact Hl].
    apply Forall_map. apply (Forall_impl _ (P := fun u => Py.lower (User.email u) = User.email u)); [| exact H0].
    intros u Hu.
    assert (He : User.email (f u) = User.email u)
      by (specialize (Hf u); unfold account in Hf; congruence).
    now rewrite He. }
  apply H. constructor.
Qed.

(** What a registration did, read back from its redirect to the
    dashboard. *)
Lemma register_success_inv db form salt now :
  reply (snd (register POST form salt now db)) = Redirect to_dashboard ->
  exists role digest,
    form_get form "role" = Some role
    /\ valid_role role = true
    /\ Py.strip (form_get_or form "name" "") <> ""
    /\ Py.strip (form_get_or form "email" "") <> ""
    /\ form_get_or form "password" "" <> ""
    /\ first_by_email db (Py.lower (Py.strip (form_get_or form "email" ""))) = None
    /\ pbkdf2_sha256_hash salt (form_get_or form "password" "") = Some digest
    /\ register POST form salt now db
       = (mkDatabase
            (users db ++
             [User.mk (next_id User.id (users db))
                      (Py.strip (form_get_or form "name" ""))
                      (Py.lower (Py.strip (form_get_or form "email" "")))
                      role "" "" "" digest now])
            (mentorship_requests db) (messages db),
          welcome (next_id User.id (users db))).
Proof.
  unfold register, set_password.
  destruct (Py.truthy (Py.strip (form_get_or form "name" ""))) eqn:Hn;
    [| discriminate].
  destruct (Py.truthy (Py.lower (Py.strip (form_get_or form "email" "")))) eqn:He;
    [| discriminate].
  destruct (form_get form "role") as [role |] eqn:Hr; [| discriminate].
  simpl.
  destruct (Py.truthy role); [| discriminate]. simpl.
  destruct (Py.truthy (form_get_or form "password" "")) eqn:Hp;
    [| discriminate].
  simpl.
  destruct (valid_role role) eqn:Hv; [| discriminate]. simpl.
  destruct (first_by_email db _) eqn:Hf; [discriminate |].
  destruct (pbkdf2_sha256_hash salt _) as [digest |] eqn:Hh; [| discriminate].
  intros _. exists role, digest.
  apply truthy_true in Hn, He, Hp.
  repeat split; try assumption.
  intros H. apply He. now rewrite H.
Qed.

End Credentials.

Lemma find_app_none {A : Type} (p : A -> bool) (l1 l2 : list A) :
  find p l1 = None -> find p (l1 ++ l2) = find p l2.
Proof.
  induction l1 as [| y l1 IH]; simpl; [trivial |].
  destruct (p y); [discriminate | exact IH].
Qed.

Lemma find_present {A : Type} (p : A -> bool) (l : list A) (x : A) :
  In x l -> p x = true -> exists y, find p l = Some y.
Proof.
  intros Hin Hp. destruct (find p l) as [y |] eqn:F; [now exists y |].
  rewrite (find_none _ _ F _ Hin) in Hp. discriminate.
Qed.

(** C4. [register] on a POST, with name and email trimmed, email
    lowered, and role and password taken as sent:
    - answers with a ValidationError when a required field is blank
      (name or email empty after trimming, role or password missing or
      empty) or the role is neither mentor nor mentee;
    - otherwise, in a store the application can be in, answers with a
      ConflictError when some user's email equals the submitted one up
      to case;
    - otherwise raises, answering with no notice, when the password has
      more than 4096 characters, and else redirects to the dashboard;
    - leaves the store as it was whenever it does not redirect to the
      dashboard, so on every error and when it raises;
    - when it redirects to the dashboard, has appended one user row,
      whose last text column is the digest the key-derivation function
      made of the password with the salt it drew: a digest in the
      format of [pbkdf2_sha256], which is not the password unless the
      password is itself written in that format; the other columns do
      not depend on the password. *)
Theorem register_checks :
  forall {hasher : PasswordHasher}
         (db : Database) (form : Form) (salt : string) (now : Z),
    let name := Py.strip (form_get_or form "name" "") in
    let email := Py.lower (Py.strip (form_get_or form "email" "")) in
    let role := form_get form "role" in
    let password := form_get_or form "password" "" in
    let result := register POST form salt now db in
    (name = "" \/ email = "" \/ role = None \/ role = Some "" \/ password = "" ->
       error_of (snd result) = Some ValidationError)
    /\
    (role <> Some "mentor" -> role <> Some "mentee" ->
       error_of (snd result) = Some ValidationError)
    /\
    (name <> "" -> email <> "" -> password <> "" ->
     role = Some "mentor" \/ role = Some "mentee" ->
     reachable db ->
     (exists u, In u (users db) /\ Py.lower (User.email u) = email) ->
       error_of (snd result) = Some ConflictError)
    /\
    (name <> "" -> email <> "" -> password <> "" ->
     role = Some "mentor" \/ role = Some "mentee" ->
     first_by_email db email = None ->
       (too_long password = true -> result = (db, quiet Unhandled))
       /\ (too_long password = false ->
             reply (snd result) = Redirect to_dashboard))
    /\
    (error_of (snd result) <> None -> fst result = db)
    /\
    (reply (snd result) <> Redirect to_dashboard -> fst result = db)
    /\
    (reply (snd result) = Redirect to_dashboard ->
       exists r digest,
         role = Some r
         /\ pbkdf2_sha256_hash salt password = Some digest
         /\ result
            = (mkDatabase
                 (users db ++
                  [User.mk (next_id User.id (users db)) name email r "" "" ""
                           digest now])
                 (mentorship_requests db) (messages db),
               welcome (next_id User.id (users db)))
         /\ starts_with "$pbkdf2-sha256$" digest = true
         /\ (starts_with "$pbkdf2-sha256$" password = false ->
             digest <> password)).
Proof.
  intros hasher db form salt now name email role password result.
  split; [| split; [| split; [| split; [| split; [| split]]]]].
  - intros Hblank. subst result. unfold register.
    fold name. fold email. fold role. fold password.
    assert (E : Py.truthy name && Py.truthy email
                && Py.truthy_opt role && Py.truthy password = false).
    { destruct Hblank as [H | [H | [H | [H | H]]]]; rewrite H; simpl;
        rewrite ?andb_false_r; reflexivity. }
    rewrite E. reflexivity.
  - intros Hmentor Hmentee. subst result. unfold register.
    fold name. fold email. fold role. fold password.
    destruct (negb _); [reflexivity |].
    destruct role as [r |]; [| reflexivity].
    assert (E : valid_role r = false).
    { unfold valid_role. apply orb_false_iff. split; apply String.eqb_neq;
        congruence. }
    rewrite E. reflexivity.
  - intros Hname Hemail Hpassword Hrole Hreach (u & Hin & Hci).
    subst result. unfold register.
    fold name. fold email. fold role. fold password.
    apply truthy_true in Hname, Hemail, Hpassword.
    rewrite Hname, Hemail, Hpassword.
    assert (Hu : User.email u = email).
    { pose proof (reachable_emails_lowered _ Hreach) as Hlow.
      unfold emails_lowered in Hlow. rewrite Forall_forall in Hlow.
      now rewrite <- (Hlow u Hin). }
    assert (Hfound : exists v, first_by_email db email = Some v).
    { apply (find_present _ _ u Hin). rewrite Hu. apply String.eqb_refl. }
    destruct Hfound as [v Hv].
    destruct Hrole as [-> | ->]; simpl; rewrite Hv; reflexivity.
  - intros Hname Hemail Hpassword Hrole Hfree.
    subst result. unfold register, set_password.
    fold name. fold email. fold role. fold password.
    apply truthy_true in Hname, Hemail, Hpassword.
    rewrite Hname, Hemail, Hpassword, Hfree.
    split; intros Hsize.
    + apply (hash_raises salt) in Hsize. rewrite Hsize.
      destruct Hrole as [-> | ->]; reflexivity.
    + destruct (pbkdf2_sha256_hash salt password) as [digest |] eqn:Hh.
      * destruct Hrole as [-> | ->]; reflexivity.
      * apply hash_raises in Hh. congruence.
  - subst result. unfold register, set_password.
    fold name. fold email. fold role. fold password.
    destruct (negb _); [reflexivity |].
    destruct role as [r |]; [| reflexivity].
    destruct (negb (valid_role r)); [reflexivity |].
    destruct (first_by_email db email); [reflexivity |].
    destruct (pbkdf2_sha256_hash salt password); [| reflexivity].
    simpl. intros H. now elim H.
  - subst result. unfold register, set_password.
    fold name. fold email. fold role. fold password.
    destruct (negb _); [reflexivity |].
    destruct role as [r |]; [| reflexivity].
    destruct (negb (valid_role r)); [reflexivity |].
    destruct (first_by_email db email); [reflexivity |].
    destruct (pbkdf2_sha256_hash salt password); [| reflexivity].
    simpl. intros H. now elim H.
  - intros Hok.
    destruct (register_success_inv _ _ _ _ Hok)
      as (r & digest & Hr & _ & _ & _ & _ & _ & Hh & Heq).
    exists r, digest. split; [exact Hr |]. split; [exact Hh |].
    split; [exact Heq |].
    pose proof (hash_format _ _ _ Hh) as Hformat.
    split; [exact Hformat |].
    intros Hplain Heq'. fold password in Hh. rewrite Heq' in Hformat.
    congruence.
Qed.

(** Dan registers in the sample store: one row is appended, which
    holds "$pbkdf2-sha256$s4$hunter2" and not "hunter2".  A second
    registration under " ALICE@Example.ORG " is a ConflictError and adds
    no row; one with no password is a ValidationError. *)
Lemma register_checks_witness :
  let dan : Form := [("name", " Dan "); ("email", "Dan@Example.org");
                     ("role", "mentee"); ("password", "hunter2")] in
  let again : Form := [("name", "Alice II"); ("email", " ALICE@Example.ORG ");
                       ("role", "mentor"); ("password", "hunter2")] in
  let blank : Form := [("name", "Dan"); ("email", "dan@example.org");
                       ("role", "mentor"); ("password", "")] in
  (exists digest,
      users (fst (register (hasher := demo_hasher) POST dan "s4" 150
                           Sample.db_registered))
      = (users Sample.db_registered ++
         [User.mk 4 "Dan" "dan@example.org" "mentee" "" "" "" digest 150])%list
      /\ digest <> "hunter2")
  /\ (error_of (snd (register (hasher := demo_hasher) POST again "s4" 150
                       Sample.db_registered))
        = Some ConflictError
      /\ fst (register (hasher := demo_hasher) POST again "s4" 150
                Sample.db_registered) = Sample.db_registered)
  /\ error_of (snd (register (hasher := demo_hasher) POST blank "s4" 150
                      Sample.db_registered))
     = Some ValidationError.
Proof.
  intros dan again blank.
  destruct (register_checks (hasher := demo_hasher) Sample.db_registered
              dan "s4" 150) as (_ & _ & _ & _ & _ & _ & Hstored).
  destruct (register_checks (hasher := demo_hasher) Sample.db_registered
              again "s4" 150) as (_ & _ & Hconflict & _ & Hzero & _).
  destruct (register_checks (hasher := demo_hasher) Sample.db_registered
              blank "s4" 150) as (Hblank & _).
  assert (Hreach : reachable (hasher := demo_hasher) Sample.db_registered).
  { exists Sample.registered. reflexivity. }
  assert (Herr : error_of (snd (register (hasher := demo_hasher) POST again
                                  "s4" 150 Sample.db_registered))
                 = Some ConflictError).
  { apply Hconflict; try discriminate.
    - left. reflexivity.
    - exact Hreach.
    - exists Sample.alice. split; [left; reflexivity | reflexivity]. }
  split; [| split; [split; [exact Herr | apply Hzero; rewrite Herr; discriminate] |]].
  - destruct (Hstored eq_refl) as (r & digest & Hr & _ & Heq & _ & Hplain).
    exists digest. injection Hr as <-. rewrite Heq.
    split; [reflexivity | apply Hplain; reflexivity].
  - apply Hblank. right. right. right. right. reflexivity.
Defined.

(** A password is taken as sent: one made of blanks is not blank to
    [register]. *)
Lemma register_password_not_trimmed :
  reply (snd (register (hasher := demo_hasher) POST
                [("name", "Dan"); ("email", "dan@example.org");
                 ("role", "mentee"); ("password", "   ")] "s4" 150
                Sample.db_registered))
  = Redirect to_dashboard.
Proof. reflexivity. Qed.

(** ** Login *)

(** [n] times the character [c]. *)
Fixpoint replicate (n : nat) (c : ascii) : string :=
  match n with
  | O => EmptyString
  | S n' => String c (replicate n' c)
  end.

(** C5, at the input where [login] departs from it.  For the email of
    a stored user and a password of more than 4096 characters, [login]
    does not answer with an AuthError: [check_password] raises
    ([pbkdf2_sha256.verify] refuses the size of the secret), so the
    request ends in an unhandled exception, with no notice; the store
    is left as it was. *)
Theorem login_oversized_password_raises :
  forall {hasher : PasswordHasher}
         (db : Database) (login_form : Form) (user : User.t),
    first_by_email db (Py.lower (Py.strip (form_get_or login_form "email" "")))
      = Some user ->
    too_long (form_get_or login_form "password" "") = true ->
    login POST login_form db = (db, quiet Unhandled)
    /\ error_of (snd (login POST login_form db)) <> Some AuthError.
Proof.
  intros hasher db login_form user Hfind Hsize.
  unfold login, check_password.
  rewrite Hfind, (verify_raises _ _ Hsize). split; [reflexivity | discriminate].
Qed.

(** Alice's email with 4097 times the letter a. *)
Lemma login_oversized_password_raises_witness :
  login (hasher := demo_hasher) POST
        [("email", "alice@example.org"); ("password", replicate 4097 "a")]
        Sample.db_registered
  = (Sample.db_registered, quiet Unhandled).
Proof.
  exact (proj1 (login_oversized_password_raises (hasher := demo_hasher)
                  Sample.db_registered
                  [("email", "alice@example.org");
                   ("password", replicate 4097 "a")]
                  Sample.alice eq_refl eq_refl)).
Defined.

(** X18. When a registration redirects to the dashboard, a later login
    with the same email and password succeeds, whatever was served in
    between, and signs the caller in as the user that registration
    created.  A login answers with an AuthError, and changes nothing,
    when no user has the trimmed and lowered email, and when
    [check_password] answers False for the user who has it. *)
Theorem authenticate_registered :
  forall {hasher : PasswordHasher}
         (db : Database) (form : Form) (salt : string) (now : Z)
         (events : list Event) (login_form : Form),
    let email := Py.lower (Py.strip (form_get_or login_form "email" "")) in
    let password := form_get_or login_form "password" "" in
    (reply (snd (register POST form salt now db)) = Redirect to_dashboard ->
     form_get_or login_form "email" "" = form_get_or form "email" "" ->
     form_get_or login_form "password" "" = form_get_or form "password" "" ->
       let db' := run (fst (register POST form salt now db)) events in
       login POST login_form db' = (db', signed_in (next_id User.id (users db)))
       /\ session_op (snd (register POST form salt now db))
          = LoginAs (next_id User.id (users db)))
    /\
    ((forall u, In u (users db) -> User.email u <> email) ->
       error_of (snd (login POST login_form db)) = Some AuthError
       /\ fst (login POST login_form db) = db)
    /\
    (forall u,
       first_by_email db email = Some u ->
       check_password u password = Some false ->
       error_of (snd (login POST login_form db)) = Some AuthError
       /\ fst (login POST login_form db) = db).
Proof.
  intros hasher db form salt now events login_form email password.
  split; [| split].
  - intros Hok Hemail Hpassword db'.
    destruct (register_success_inv _ _ _ _ Hok)
      as (r & digest & _ & _ & _ & _ & _ & Hfree & Hh & Heq).
    subst db'. rewrite Heq. cbn [fst snd]. split; [| reflexivity].
    match goal with
    | |- context [run (mkDatabase (users db ++ [?n]) ?rs ?ms) events] =>
        set (u := n); set (db1 := mkDatabase (users db ++ [u]) rs ms)
    end.
    assert (Hu : first_by_email db1 email = Some u).
    { unfold first_by_email in *. subst db1 email. cbn [users].
      rewrite Hemail, (find_app_none _ _ _ Hfree). simpl.
      now rewrite String.eqb_refl. }
    assert (Hid : User.id u = next_id User.id (users db)) by reflexivity.
    assert (Hhash : User.password_hash u = digest) by reflexivity.
    clearbody u db1.
    destruct (run_keeps_account events _ _ _ Hu) as (u' & Hu' & Hacc).
    unfold login. fold email. fold password. rewrite Hu'.
    unfold account in Hacc.
    assert (Hid' : User.id u' = next_id User.id (users db)) by congruence.
    assert (Hhash' : User.password_hash u' = digest) by congruence.
    unfold check_password. rewrite Hhash'. subst password.
    rewrite Hpassword, (verify_hash _ _ _ Hh), Hid'. reflexivity.
  - intros Hnone. unfold login. fold email. fold password.
    destruct (first_by_email db email) as [u |] eqn:F.
    + apply find_some in F. destruct F as [Hin Heq].
      apply String.eqb_eq in Heq. now elim (Hnone u Hin).
    + split; reflexivity.
  - intros u Hu Hbad. unfold login. fold email. fold password.
    rewrite Hu, Hbad. split; reflexivity.
Qed.

(** Alice registers; Bob registers, Alice edits her profile and asks
    Bob for a mentorship; then Alice logs in with what she registered
    and is signed in as user 1.  A wrong password and an unknown email
    are AuthErrors. *)
Lemma authenticate_registered_witness :
  let events :=
    [ Request None 110 (Register POST Sample.bob_form "s2");
      Request (Some 1) 115 (EditProfile POST [("name", "Alice L."); ("bio", "hello")]);
      Request (Some 1) 130
              (Mentorships POST [("mentor_id", "2"); ("goal", "learn X")]) ] in
  let db' := run (hasher := demo_hasher)
                 (fst (register (hasher := demo_hasher) POST Sample.alice_form
                                "s1" 100 empty_db)) events in
  login (hasher := demo_hasher) POST Sample.alice_form db' = (db', signed_in 1)
  /\ error_of (snd (login (hasher := demo_hasher) POST
                      [("email", "alice@example.org"); ("password", "wrong")] db'))
     = Some AuthError
  /\ error_of (snd (login (hasher := demo_hasher) POST
                      [("email", "nobody@example.org"); ("password", "x")] db'))
     = Some AuthError.
Proof.
  intros events db'.
  destruct (authenticate_registered (hasher := demo_hasher) empty_db
              Sample.alice_form "s1" 100 events Sample.alice_form)
    as (Hok & _ & _).
  destruct (authenticate_registered (hasher := demo_hasher) db' [] "" 0 []
              [("email", "alice@example.org"); ("password", "wrong")])
    as (_ & _ & Hwrong).
  destruct (authenticate_registered (hasher := demo_hasher) db' [] "" 0 []
              [("email", "nobody@example.org"); ("password", "x")])
    as (_ & Hnobody & _).
  split; [exact (proj1 (Hok eq_refl eq_refl eq_refl)) |].
  split.
  - refine (proj1 (Hwrong _ eq_refl eq_refl)).
  - refine (proj1 (Hnobody _)).
    intros u Hin. vm_compute in Hin.
    destruct Hin as [<- | [<- | []]]; discriminate.
Defined.

(** ** Runs of the whole application *)

(** A mentor_id that [int] cannot read, or one outside the key range of
    the store, is not answered with a notice: the handler raises. *)
Lemma create_unreadable_mentor_id_raises :
  mentorships Sample.alice POST [("mentor_id", "abc"); ("goal", "learn X")] 140
              Sample.db_registered
  = (Sample.db_registered, quiet Unhandled)
  /\ mentorships Sample.alice POST
                 [("mentor_id", "99999999999999999999"); ("goal", "learn X")] 140
                 Sample.db_registered
     = (Sample.db_registered, quiet Unhandled).
Proof. split; reflexivity. Qed.

(** [int] skips the blanks of a literal and no other character: a
    mentor_id of " 3 " reads as 3, one that starts with U+001F, which
    [str.strip] would drop, does not read at all, and the handler
    raises. *)
Lemma int_blanks_example :
  Py.int " 3 " = Some 3
  /\ Py.int "1_0" = Some 10
  /\ Py.strip (String (ascii_of_nat 31) "3") = "3"
  /\ Py.int (String (ascii_of_nat 31) "3") = None
  /\ mentorships Sample.alice POST
                 [("mentor_id", String (ascii_of_nat 31) "3"); ("goal", "learn X")]
                 140 Sample.db_registered
     = (Sample.db_registered, quiet Unhandled).
Proof. repeat split; reflexivity. Qed.

(** The listing of a user's requests on a store with three of them:
    Alice is a party to the first and the third, and sees the third
    first. *)
Lemma requests_listing_example :
  let second := MentorshipRequest.mk 2 3 7 "learn Y" "pending" 140 in
  let third := MentorshipRequest.mk 3 3 1 "learn Z" "accepted" 150 in
  let db := mkDatabase [Sample.alice; Sample.bob; Sample.carol]
                       [Sample.learn_x; second; third] [] in
  requests_of db 1 = [third; Sample.learn_x]
  /\ requests_of db 3 = [third; second].
Proof. split; reflexivity. Qed.

(** Alice and Bob register, Alice asks Bob to teach her X, Bob accepts,
    Alice says "hi" and Bob "hello", and Alice marks the mentorship
    completed. *)
Lemma end_to_end :
  let events :=
    [ Request None 100 (Register POST Sample.alice_form "s1");
      Request None 110 (Register POST Sample.bob_form "s2");
      Request (Some 1) 130
              (Mentorships POST [("mentor_id", "2"); ("goal", "learn X")]);
      Request (Some 2) 140 (Accept 1);
      Request (Some 1) 150 (Messages POST 1 [("body", "hi")]);
      Request (Some 2) 160 (Messages POST 1 [("body", "hello")]) ] in
  let db := run (hasher := demo_hasher) empty_db events in
  map MentorshipRequest.status (mentorship_requests db) = ["accepted"]
  /\ map Message.body (chat_of db 1) = ["hi"; "hello"]
  /\ map MentorshipRequest.status
         (mentorship_requests
            (run (hasher := demo_hasher) db [Request (Some 1) 170 (Complete 1)]))
     = ["completed"].
Proof. repeat split. Qed.

(** * Further properties of the handlers *)

(** ** Who reaches a view *)

(** The views that [app.py] decorates with [@login_required]. *)
Definition protected (a : Action) : bool :=
  match a with
  | Index | Register _ _ _ | Login _ _ => false
  | _ => true
  end.

(** X1. A protected view does not run without a signed-in user: with
    no session, or with the session of a user the store does not hold,
    the caller is redirected to the login view and the store is left as
    it was. *)
Theorem anonymous_is_turned_away :
  forall {hasher : PasswordHasher}
         (db : Database) (session : option Z) (now : Z) (a : Action),
    protected a = true ->
    session = None
    \/ (exists uid, session = Some uid /\ load_user db uid = Missing) ->
    fst (step db session now a) = db
    /\ reply (snd (step db session now a)) = Redirect to_login.
Proof.
  intros hasher db session now a Hprot Hanon.
  destruct a; try discriminate Hprot;
    unfold step, login_required;
    destruct Hanon as [-> | (uid & -> & ->)]; split; reflexivity.
Qed.

(** Nobody is signed in, or the session names user 9: the request of
    Alice can be neither accepted nor written to. *)
Lemma anonymous_is_turned_away_witness :
  fst (step (hasher := demo_hasher) Sample.db_requested None 140 (Accept 1))
  = Sample.db_requested
  /\ fst (step (hasher := demo_hasher) Sample.db_requested (Some 9) 140
               (Messages POST 1 [("body", "hi")]))
     = Sample.db_requested.
Proof.
  split.
  - apply (anonymous_is_turned_away (hasher := demo_hasher));
      [reflexivity | left; reflexivity].
  - apply (anonymous_is_turned_away (hasher := demo_hasher));
      [reflexivity | right; exists 9; split; reflexivity].
Defined.

(** ** Requests that do not exist *)

Lemma query_get_missing {A : Type} (key : A -> Z) (rows : list A) (k : Z) :
  in_key_range k = true ->
  (forall r, In r rows -> key r <> k) ->
  query_get key rows k = Missing.
Proof.
  intros Hrange Hnone. unfold query_get. rewrite Hrange.
  destruct (find _ rows) as [r |] eqn:F; [| reflexivity].
  apply find_some in F. destruct F as [Hin Hk].
  apply Z.eqb_eq in Hk. now elim (Hnone r Hin).
Qed.

(** X2. For a request id in the key range of the store that no request
    row has, [accept_request], [decline_request], [complete_request]
    and [mentorship_messages] (GET and POST) abort with 404, whoever
    calls, and leave the store as it was. *)
Theorem unknown_request_is_not_found :
  forall (db : Database) (current_user : User.t) (request_id : Z)
         (m : Method) (form : Form) (now : Z),
    in_key_range request_id = true ->
    (forall r, In r (mentorship_requests db) ->
               MentorshipRequest.id r <> request_id) ->
    accept_request current_user request_id db = (db, quiet (Abort 404))
    /\ decline_request current_user request_id db = (db, quiet (Abort 404))
    /\ complete_request current_user request_id db = (db, quiet (Abort 404))
    /\ mentorship_messages current_user m request_id form now db
       = (db, quiet (Abort 404))
    /\ error_of (quiet (Abort 404)) = Some NotFoundError.
Proof.
  intros db u rid m form now Hrange Hnone.
  pose proof (query_get_missing MentorshipRequest.id _ _ Hrange Hnone) as Hq.
  unfold accept_request, decline_request, complete_request,
    mentorship_messages, get_or_404.
  rewrite Hq. repeat split.
Qed.

(** There is no request 7 in the sample store. *)
Lemma unknown_request_is_not_found_witness :
  accept_request Sample.bob 7 Sample.db_requested
  = (Sample.db_requested, quiet (Abort 404))
  /\ mentorship_messages Sample.alice POST 7 [("body", "hi")] 140
                         Sample.db_requested
     = (Sample.db_requested, quiet (Abort 404)).
Proof.
  assert (Hnone : forall r, In r (mentorship_requests Sample.db_requested) ->
                            MentorshipRequest.id r <> 7).
  { intros r [<- | []]. discriminate. }
  destruct (unknown_request_is_not_found Sample.db_requested Sample.bob 7
              POST [] 140 eq_refl Hnone) as (Ha & _).
  destruct (unknown_request_is_not_found Sample.db_requested Sample.alice 7
              POST [("body", "hi")] 140 eq_refl Hnone) as (_ & _ & _ & Hm & _).
  exact (conj Ha Hm).
Defined.

(** ** What a transition leaves alone *)

(** The columns of a request that no handler rewrites. *)
Definition fixed_columns (r : MentorshipRequest.t) : Z * Z * Z * string * Z :=
  (MentorshipRequest.id r, MentorshipRequest.mentor_id r,
   MentorshipRequest.mentee_id r, MentorshipRequest.goal r,
   MentorshipRequest.created_at r).

(** What a handler of [/mentorships/<id>/...] may do to the store. *)
Definition status_frame (request_id : Z) (db db' : Database) : Prop :=
  users db' = users db
  /\ messages db' = messages db
  /\ map fixed_columns (mentorship_requests db')
     = map fixed_columns (mentorship_requests db)
  /\ (forall r, In r (mentorship_requests db) ->
                MentorshipRequest.id r <> request_id ->
                In r (mentorship_requests db')).

Definition touches_one_status
           (op : User.t -> Z -> Database -> Database * Response) : Prop :=
  forall (current_user : User.t) (request_id : Z) (db : Database),
    status_frame request_id db (fst (op current_user request_id db)).

Lemma status_frame_refl rid db : status_frame rid db db.
Proof. repeat split; trivial. Qed.

Lemma status_frame_update rid db s :
  status_frame rid db (update_status db rid s).
Proof.
  unfold status_frame, update_status; simpl.
  split; [reflexivity |]. split; [reflexivity |]. split.
  - rewrite map_map. apply map_ext. intros r.
    destruct (MentorshipRequest.id r =? rid); reflexivity.
  - intros r Hin Hne. apply in_map_iff. exists r. split; [| exact Hin].
    apply Z.eqb_neq in Hne. now rewrite Hne.
Qed.

(** X3. [accept_request], [decline_request] and [complete_request]
    never touch a user or a message, never add or drop a request, and
    never change the id, mentor, mentee, goal or creation time of any
    request; a request with another id is left exactly as it was.  This
    holds for every caller and every id, accepted or refused. *)
Theorem transitions_touch_one_status :
  touches_one_status accept_request
  /\ touches_one_status decline_request
  /\ touches_one_status complete_request.
Proof.
  split; [| split]; intros u rid db;
    unfold accept_request, decline_request, complete_request, get_or_404;
    destruct (query_get MentorshipRequest.id (mentorship_requests db) rid)
      as [r | |] eqn:Hget; try apply status_frame_refl;
    destruct (query_get_found_id _ _ _ _ Hget) as [Hid _];
    match goal with
    | |- context [if ?c then _ else _] => destruct c
    end; cbn [fst]; rewrite ?Hid;
    first [apply status_frame_refl | apply status_frame_update].
Qed.

(** ** Posting and the status of the request *)

(** X4. A POST to [mentorship_messages] by a participant with a body
    that is not blank appends exactly one message (that request, that
    sender, the trimmed body, the clock reading) and touches nothing
    else, whatever the status of the request: a pending, declined or
    completed request takes messages like an accepted one. *)
Theorem post_appends_whatever_status :
  forall (db : Database) (current_user : User.t) (request_id : Z)
         (mentorship : MentorshipRequest.t) (form : Form) (now : Z),
    query_get MentorshipRequest.id (mentorship_requests db) request_id
      = Found mentorship ->
    User.id current_user = MentorshipRequest.mentor_id mentorship
    \/ User.id current_user = MentorshipRequest.mentee_id mentorship ->
    Py.strip (form_get_or form "body" "") <> "" ->
    mentorship_messages current_user POST request_id form now db
    = (mkDatabase (users db) (mentorship_requests db)
                  (messages db ++
                   [Message.mk (next_id Message.id (messages db)) request_id
                               (User.id current_user)
                               (Py.strip (form_get_or form "body" "")) now]),
       respond "Message sent." "success"
               (Redirect (to_mentorship_messages request_id))).
Proof.
  intros db u rid r form now Hget Hpart Hbody.
  destruct (query_get_found_id _ _ _ _ Hget) as [Hid _].
  unfold mentorship_messages, get_or_404. rewrite Hget.
  rewrite (unrelated_false _ _ Hpart).
  apply truthy_true in Hbody. rewrite Hbody, Hid. reflexivity.
Qed.

(** Bob has declined Alice's request; Alice still writes to it. *)
Lemma post_appends_whatever_status_witness :
  let declined := MentorshipRequest.set_status Sample.learn_x "declined" in
  let db := mkDatabase [Sample.alice; Sample.bob; Sample.carol] [declined] [] in
  messages (fst (mentorship_messages Sample.alice POST 1
                   [("body", " are you sure? ")] 200 db))
  = [Message.mk 1 1 1 "are you sure?" 200].
Proof.
  intros declined db.
  rewrite (post_appends_whatever_status db Sample.alice 1 declined
             [("body", " are you sure? ")] 200 eq_refl (or_intror eq_refl)).
  - reflexivity.
  - discriminate.
Defined.

(** ** Profile *)

Lemma find_id_map (g : User.t -> User.t) (k : Z) (l : list User.t) :
  (forall u, User.id (g u) = User.id u) ->
  find (fun u => User.id u =? k) (map g l)
  = option_map g (find (fun u => User.id u =? k) l).
Proof.
  intros Hg. induction l as [| u l IH]; simpl; [reflexivity |].
  rewrite Hg. destruct (User.id u =? k); [reflexivity | exact IH].
Qed.

(** X5. A POST to [edit_profile] rewrites name, bio, skills and
    availability in the caller's row, each to the value the form sends
    and, when the form does not send it, to the value it had; no value
    is validated, so the name may become empty.  The id, email, role
    and digest of every user stay as they were, a row of another user
    is not changed, and no request or message is touched. *)
Theorem edit_profile_rewrites_four_columns :
  forall (db : Database) (current_user : User.t) (form : Form),
    query_get User.id (users db) (User.id current_user) = Found current_user ->
    let db' := fst (edit_profile current_user POST form db) in
    query_get User.id (users db') (User.id current_user)
    = Found (User.mk (User.id current_user)
                     (form_get_or form "name" (User.name current_user))
                     (User.email current_user) (User.role current_user)
                     (form_get_or form "bio" (User.bio current_user))
                     (form_get_or form "skills" (User.skills current_user))
                     (form_get_or form "availability"
                                  (User.availability current_user))
                     (User.password_hash current_user)
                     (User.created_at current_user))
    /\ map account (users db') = map account (users db)
    /\ (forall u, In u (users db) -> User.id u <> User.id current_user ->
                  In u (users db'))
    /\ mentorship_requests db' = mentorship_requests db
    /\ messages db' = messages db.
Proof.
  intros db cu form Hget db'. subst db'.
  unfold edit_profile, update_profile; cbn [fst users mentorship_requests messages].
  split; [| split; [| split; [| split]]]; try reflexivity.
  - unfold query_get in *.
    destruct (in_key_range (User.id cu)); [| discriminate].
    rewrite find_id_map
      by (intros u; destruct (User.id u =? User.id cu); reflexivity).
    destruct (find _ (users db)) as [v |]; [| discriminate].
    injection Hget as ->. simpl. now rewrite Z.eqb_refl.
  - rewrite map_map. apply map_ext. intros u.
    destruct (User.id u =? User.id cu); reflexivity.
  - intros u Hin Hne. apply in_map_iff. exists u. split; [| exact Hin].
    apply Z.eqb_neq in Hne. now rewrite Hne.
Qed.

(** Alice sends an empty name and no other field: her name is now
    empty, her email is kept, and Bob's row is as it was. *)
Lemma edit_profile_rewrites_four_columns_witness :
  let db' := fst (edit_profile Sample.alice POST [("name", "")]
                               Sample.db_registered) in
  query_get User.id (users db') 1
  = Found (User.mk 1 "" "alice@example.org" "mentee" "" "" ""
                   "$pbkdf2-sha256$s1$correct horse" 100)
  /\ In Sample.bob (users db').
Proof.
  intros db'.
  destruct (edit_profile_rewrites_four_columns Sample.db_registered
              Sample.alice [("name", "")] eq_refl) as (Hrow & _ & Hother & _).
  split; [exact Hrow |].
  apply Hother; [right; left; reflexivity | discriminate].
Defined.

(** ** Registration and the session *)

Lemma keys_below_next {A : Type} (key : A -> Z) (rows : list A) :
  0 < next_id key rows /\ Forall (fun r => key r < next_id key rows) rows.
Proof.
  assert (Hnonneg : forall l : list A,
             0 <= fold_right (fun r m => Z.max (key r) m) 0 l).
  { induction l as [| y l IHl]; cbn [fold_right]; lia. }
  unfold next_id. split; [specialize (Hnonneg rows); lia |].
  induction rows as [| x rows IH]; cbn [fold_right]; [constructor |].
  constructor; [lia |].
  apply (Forall_impl _ (P := fun r => key r < 1 + fold_right (fun r m => Z.max (key r) m) 0 rows));
    [intros r Hr; lia | exact IH].
Qed.

Lemma find_id_fresh (l : list User.t) (u : User.t) :
  User.id u = next_id User.id l ->
  find (fun v => User.id v =? User.id u) (l ++ [u]) = Some u.
Proof.
  intros Hid. rewrite find_app_none.
  - simpl. now rewrite Z.eqb_refl.
  - destruct (find _ l) as [v |] eqn:F; [| reflexivity].
    apply find_some in F. destruct F as [Hin Hk]. apply Z.eqb_eq in Hk.
    destruct (keys_below_next User.id l) as [_ Hall].
    rewrite Forall_forall in Hall. specialize (Hall v Hin). lia.
Qed.

(** X6. A [register] that redirects to the dashboard, which it does
    only after it has stored a user, signs the caller in as the row it
    has just stored: the id it puts in the session is carried by no
    earlier user, and (within the key range of the store) [load_user]
    answers that id with the new row, which holds the trimmed name, the
    trimmed and lowered email and the role as sent. *)
Theorem register_signs_in_new_user :
  forall {hasher : PasswordHasher}
         (db : Database) (form : Form) (salt : string) (now : Z),
    reply (snd (register POST form salt now db)) = Redirect to_dashboard ->
    in_key_range (next_id User.id (users db)) = true ->
    exists u,
      session_op (snd (register POST form salt now db)) = LoginAs (User.id u)
      /\ load_user (fst (register POST form salt now db)) (User.id u) = Found u
      /\ (forall v, In v (users db) -> User.id v <> User.id u)
      /\ User.name u = Py.strip (form_get_or form "name" "")
      /\ User.email u = Py.lower (Py.strip (form_get_or form "email" ""))
      /\ form_get form "role" = Some (User.role u).
Proof.
  intros hasher db form salt now Hok Hrange.
  destruct (register_success_inv _ _ _ _ Hok)
    as (r & digest & Hr & _ & _ & _ & _ & _ & _ & Heq).
  rewrite Heq. cbn [fst snd].
  match goal with
  | |- context [(users db ++ [?n])%list] => exists n
  end.
  split; [reflexivity |]. split; [| split; [| repeat split; exact Hr]].
  - unfold load_user, query_get. cbn [users].
    match goal with
    | |- context [(users db ++ [?n])%list] =>
        pose proof (find_id_fresh (users db) n eq_refl) as Hfresh
    end.
    cbn [User.id] in Hfresh |- *. now rewrite Hrange, Hfresh.
  - intros v Hin. cbn [User.id].
    destruct (keys_below_next User.id (users db)) as [_ Hall].
    rewrite Forall_forall in Hall. specialize (Hall v Hin). lia.
Qed.

(** Dan registers in the sample store and is signed in as user 4. *)
Lemma register_signs_in_new_user_witness :
  let form : Form := [("name", " Dan "); ("email", "Dan@Example.org");
                      ("role", "mentee"); ("password", "pw")] in
  exists u,
    session_op (snd (register (hasher := demo_hasher) POST form "s4" 150
                              Sample.db_registered)) = LoginAs 4
    /\ load_user (fst (register (hasher := demo_hasher) POST form "s4" 150
                                Sample.db_registered)) 4 = Found u
    /\ User.name u = "Dan" /\ User.email u = "dan@example.org".
Proof.
  intros form.
  destruct (register_signs_in_new_user (hasher := demo_hasher)
              Sample.db_registered form "s4" 150 eq_refl eq_refl)
    as (u & Hsession & Hload & _ & Hname & Hemail & _).
  assert (Hid : User.id u = 4) by (injection Hsession as <-; reflexivity).
  exists u. rewrite Hid in *. repeat split; assumption.
Defined.

(** ** What one event can do to the store *)

Lemma login_required_cases db session view :
  login_required db session view
  = (db, respond "Please log in to access this page." "message"
                 (Redirect to_login))
  \/ login_required db session view = (db, quiet Unhandled)
  \/ exists uid u,
       session = Some uid /\ load_user db uid = Found u
       /\ login_required db session view = view u.
Proof.
  unfold login_required. destruct session as [uid |]; [| now left].
  destruct (load_user db uid) as [u | |] eqn:Hload.
  - right. right. exists uid, u. repeat split; assumption.
  - now left.
  - right. now left.
Qed.

(** What a POST to [mentorships] does, with what the checks it passed
    have established. *)
Lemma mentorships_post_cases current_user form now db :
  fst (mentorships current_user POST form now db) = db
  \/ exists k mentor,
       query_get User.id (users db) k = Found mentor
       /\ User.role mentor = "mentor"
       /\ User.role current_user = "mentee"
       /\ Py.strip (form_get_or form "goal" "") <> ""
       /\ fst (mentorships current_user POST form now db)
          = add_mentorship db (User.id mentor) (User.id current_user)
                           (Py.strip (form_get_or form "goal" "")) now.
Proof.
  unfold mentorships.
  destruct (Py.truthy_opt (form_get form "mentor_id")); [| now left].
  destruct (Py.truthy (Py.strip (form_get_or form "goal" ""))) eqn:Hgoal;
    [| now left].
  simpl.
  destruct (String.eqb (User.role current_user) "mentee") eqn:Hrole;
    [| now left].
  simpl.
  destruct (Py.int _) as [k |]; [| now left].
  destruct (query_get User.id (users db) k) as [mentor | |] eqn:Hget;
    try (now left).
  destruct (String.eqb (User.role mentor) "mentor") eqn:Hmentor; [| now left].
  right. exists k, mentor.
  apply String.eqb_eq in Hrole, Hmentor. apply truthy_true in Hgoal.
  repeat split; assumption.
Qed.

(** What a request to [mentorship_messages] does. *)
Lemma mentorship_messages_cases current_user m request_id form now db :
  fst (mentorship_messages current_user m request_id form now db) = db
  \/ exists mentorship,
       In mentorship (mentorship_requests db)
       /\ (User.id current_user = MentorshipRequest.mentor_id mentorship
           \/ User.id current_user = MentorshipRequest.mentee_id mentorship)
       /\ Py.strip (form_get_or form "body" "") <> ""
       /\ fst (mentorship_messages current_user m request_id form now db)
          = add_message db (MentorshipRequest.id mentorship)
                        (User.id current_user)
                        (Py.strip (form_get_or form "body" "")) now.
Proof.
  unfold mentorship_messages, get_or_404.
  destruct (query_get MentorshipRequest.id (mentorship_requests db) request_id)
    as [r | |] eqn:Hget; try (now left).
  destruct (unrelated current_user r) eqn:Hrel; [now left |].
  destruct m; [now left |].
  destruct (Py.truthy (Py.strip (form_get_or form "body" ""))) eqn:Hbody;
    [| now left].
  right. exists r.
  destruct (query_get_found_id _ _ _ _ Hget) as [_ Hin].
  apply truthy_true in Hbody.
  split; [exact Hin |]. split; [| split; [exact Hbody | reflexivity]].
  unfold unrelated in Hrel. apply negb_false_iff, orb_true_iff in Hrel.
  destruct Hrel as [H | H]; [left | right]; now apply Z.eqb_eq.
Qed.

(** The five things an event can do to the requests and the messages. *)
Inductive Effect (db db' : Database) : Prop :=
| effect_users :
    mentorship_requests db' = mentorship_requests db ->
    messages db' = messages db ->
    Effect db db'
| effect_status (rid : Z) (s : string) :
    db' = update_status db rid s ->
    In s ["accepted"; "declined"; "completed"] ->
    Effect db db'
| effect_request (mentor mentee : User.t) (goal : string) (now : Z) :
    db' = add_mentorship db (User.id mentor) (User.id mentee) goal now ->
    In mentor (users db) -> User.role mentor = "mentor" ->
    In mentee (users db) -> User.role mentee = "mentee" ->
    User.id mentor <> User.id mentee ->
    goal <> "" ->
    Effect db db'
| effect_message (r : MentorshipRequest.t) (sender : Z) (body : string) (now : Z) :
    db' = add_message db (MentorshipRequest.id r) sender body now ->
    In r (mentorship_requests db) ->
    sender = MentorshipRequest.mentor_id r
    \/ sender = MentorshipRequest.mentee_id r ->
    body <> "" ->
    Effect db db'
| effect_delete (rid : Z) :
    db' = delete_mentorship db rid ->
    Effect db db'.

Lemma effect_none db : Effect db db.
Proof. now apply effect_users. Qed.

Lemma transition_effect db current_user request_id :
  Effect db (fst (accept_request current_user request_id db))
  /\ Effect db (fst (decline_request current_user request_id db))
  /\ Effect db (fst (complete_request current_user request_id db)).
Proof.
  unfold accept_request, decline_request, complete_request, get_or_404.
  destruct (query_get MentorshipRequest.id (mentorship_requests db) request_id)
    as [r | |]; try (repeat split; apply effect_none).
  repeat split;
    match goal with
    | |- context [if ?c then _ else _] => destruct c
    end; cbn [fst]; try apply effect_none;
    eapply effect_status; try reflexivity; simpl; tauto.
Qed.

Lemma apply_event_effect {hasher : PasswordHasher} db e :
  Effect db (apply_event db e).
Proof.
  destruct e as [session now a | rid]; [| now apply (effect_delete _ _ rid)].
  unfold apply_event.
  destruct a;
    try (unfold step, index, register, set_password, add_user, login;
         split_cases; simpl; apply effect_users; reflexivity);
    unfold step;
    match goal with
    | |- context [login_required db session ?v] =>
        destruct (login_required_cases db session v)
          as [-> | [-> | (uid & u & _ & Hload & ->)]];
        try apply effect_none
    end.
  - unfold edit_profile. destruct m; apply effect_users; reflexivity.
  - destruct m; [apply effect_none |].
    destruct (mentorships_post_cases u form now db)
      as [-> | (k & mentor & Hget & Hmentor & Hmentee & Hgoal & ->)];
      [apply effect_none |].
    destruct (query_get_found_id _ _ _ _ Hget) as [Hk Hin].
    destruct (query_get_found_id _ _ _ _ Hload) as [Huid Hin'].
    eapply effect_request; try reflexivity; try assumption.
    intros Heq. unfold load_user in Hload.
    assert (Hsame : Found mentor = Found u) by (rewrite <- Hget, <- Hload; congruence).
    injection Hsame as ->. rewrite Hmentor in Hmentee. discriminate.
  - apply transition_effect.
  - apply transition_effect.
  - apply transition_effect.
  - destruct (mentorship_messages_cases u m request_id form now db)
      as [-> | (r & Hin & Hpart & Hbody & ->)]; [apply effect_none |].
    eapply effect_message; try reflexivity; assumption.
Qed.

(** ** Invariants of the stores the application can be in *)

Lemma reachable_induction {hasher : PasswordHasher} (P : Database -> Prop) :
  P empty_db ->
  (forall db e, P db -> P (apply_event db e)) ->
  forall db, reachable db -> P db.
Proof.
  intros Hempty Hstep db [events ->]. unfold run.
  assert (H : forall db0, P db0 -> P (fold_left apply_event events db0)).
  { induction events as [| e events IH]; intros db0 H0; simpl; [exact H0 |].
    apply IH, Hstep, H0. }
  apply H, Hempty.
Qed.

Lemma account_columns (f : User.t -> User.t) (l : list User.t) :
  (forall u, account (f u) = account u) ->
  map User.id (map f l) = map User.id l
  /\ map User.email (map f l) = map User.email l
  /\ map User.role (map f l) = map User.role l.
Proof.
  intros Hf. rewrite !map_map. repeat split; apply map_ext; intros u;
    specialize (Hf u); unfold account in Hf; congruence.
Qed.

(** X7. No event deletes a user or changes who a user is: after any
    run, every user the store held is still there, with the id, the
    email, the role and the digest it had. *)
Theorem accounts_persist :
  forall {hasher : PasswordHasher} (events : list Event) (db : Database)
         (u : User.t),
    In u (users db) ->
    exists u', In u' (users (run db events)) /\ account u' = account u.
Proof.
  intros hasher events. unfold run.
  induction events as [| e events IH]; intros db u Hin; simpl.
  - exists u. split; [exact Hin | reflexivity].
  - destruct (apply_event_users db e) as (f & l & Husers & Hf & _).
    assert (Hnext : In (f u) (users (apply_event db e))).
    { rewrite Husers. apply in_or_app. left. now apply in_map. }
    destruct (IH _ _ Hnext) as (u' & Hin' & Hacc).
    exists u'. split; [exact Hin' | now rewrite Hacc].
Qed.

(** Alice edits her profile, a request is made and deleted, Dan
    registers: Alice's account is the one she registered. *)
Lemma accounts_persist_witness :
  exists u',
    In u' (users (run (hasher := demo_hasher) Sample.db_registered
                      [ Request (Some 1) 130 (EditProfile POST [("name", "A.")]);
                        Request (Some 1) 140
                                (Mentorships POST [("mentor_id", "2"); ("goal", "x")]);
                        DeleteMentorship 1 ]))
    /\ account u' = (1, "alice@example.org", "mentee",
                     "$pbkdf2-sha256$s1$correct horse").
Proof.
  exact (accounts_persist (hasher := demo_hasher) _ Sample.db_registered
                          Sample.alice (or_introl eq_refl)).
Defined.

(** What [register] does to the user table. *)
Lemma register_cases {hasher : PasswordHasher} m form salt now db :
  fst (register m form salt now db) = db
  \/ exists u,
       users (fst (register m form salt now db)) = (users db ++ [u])%list
       /\ User.id u = next_id User.id (users db)
       /\ first_by_email db (User.email u) = None
       /\ valid_role (User.role u) = true
       /\ User.email u <> ""
       /\ Py.lower (User.email u) = User.email u.
Proof.
  destruct m; [now left |].
  assert (H : fst (register POST form salt now db) = db
              \/ reply (snd (register POST form salt now db))
                 = Redirect to_dashboard).
  { unfold register, set_password.
    destruct (negb _); [now left |].
    destruct (form_get form "role") as [r |]; [| now left].
    destruct (negb (valid_role r)); [now left |].
    destruct (first_by_email db _); [now left |].
    destruct (pbkdf2_sha256_hash _ _); [now right | now left]. }
  destruct H as [H | E]; [now left |].
  - right.
    destruct (register_success_inv _ _ _ _ E)
      as (r & digest & _ & Hvalid & _ & Hemail & _ & Hfree & _ & ->).
    eexists. cbn [fst users]. split; [reflexivity |]. cbn.
    repeat split; try assumption.
    + intros H. apply Hemail. now apply lower_empty.
    + apply lower_idempotent.
Qed.

Definition is_register (a : Action) : bool :=
  match a with Register _ _ _ => true | _ => false end.

(** The user table after an event: the rows it had, each with its
    account, and at most one new row, which [register] has checked. *)
Lemma apply_event_users_new {hasher : PasswordHasher} db e :
  exists f l,
    users (apply_event db e) = (map f (users db) ++ l)%list
    /\ (forall u, account (f u) = account u)
    /\ (l = []
        \/ exists u,
             l = [u]
             /\ User.id u = next_id User.id (users db)
             /\ first_by_email db (User.email u) = None
             /\ valid_role (User.role u) = true
             /\ User.email u <> ""
             /\ Py.lower (User.email u) = User.email u).
Proof.
  destruct e as [session now a | rid];
    [| exists (fun u => u), []; simpl; rewrite map_id, app_nil_r;
       repeat split; now left].
  destruct (is_register a) eqn:Hreg.
  - destruct a; try discriminate Hreg. unfold apply_event, step.
    destruct (register_cases m form salt now db) as [-> | (u & -> & Hu)].
    + exists (fun u => u), []. rewrite map_id, app_nil_r.
      repeat split. now left.
    + exists (fun u => u), [u]. rewrite map_id.
      repeat split. right. exists u. split; [reflexivity | exact Hu].
  - destruct a; try discriminate Hreg;
      unfold apply_event, step, login_required, index, login, logout,
        dashboard, edit_profile, mentorships, accept_request, decline_request,
        complete_request, mentorship_messages, get_or_404;
      split_cases; simpl;
      first
        [ exists (fun u => u), [];
          split; [now rewrite map_id, app_nil_r |];
          split; [reflexivity | now left]
        | eexists _, [];
          split; [rewrite app_nil_r; reflexivity |];
          split; [intros u; simpl; now destruct (User.id u =? _) | now left] ].
Qed.

(** The user table is well formed. *)
Definition users_ok (l : list User.t) : Prop :=
  NoDup (map User.email l)
  /\ NoDup (map User.id l)
  /\ Forall (fun u => (User.role u = "mentor" \/ User.role u = "mentee")
                      /\ User.email u <> ""
                      /\ Py.lower (User.email u) = User.email u) l.

Lemma valid_role_cases (r : string) :
  valid_role r = true -> r = "mentor" \/ r = "mentee".
Proof.
  unfold valid_role. intros H. apply orb_true_iff in H.
  destruct H as [H | H]; [left | right]; now apply String.eqb_eq.
Qed.

Lemma NoDup_snoc {A : Type} (l : list A) (x : A) :
  NoDup l -> ~ In x l -> NoDup (l ++ [x]).
Proof.
  intros Hl Hx. apply NoDup_app; [exact Hl | repeat constructor; intros [] |].
  intros a Ha [<- | []]. contradiction.
Qed.

Lemma users_ok_step {hasher : PasswordHasher} db e :
  users_ok (users db) -> users_ok (users (apply_event db e)).
Proof.
  intros (Hemails & Hids & Hrows).
  destruct (apply_event_users_new db e) as (f & l & -> & Hf & Hl).
  destruct (account_columns f (users db) Hf) as (Eid & Eemail & _).
  assert (Hrows' : Forall (fun u => (User.role u = "mentor" \/ User.role u = "mentee")
                                    /\ User.email u <> ""
                                    /\ Py.lower (User.email u) = User.email u)
                          (map f (users db))).
  { apply Forall_map. apply (Forall_impl _ (P := fun u => (User.role u = "mentor" \/ User.role u = "mentee")
                                    /\ User.email u <> ""
                                    /\ Py.lower (User.email u) = User.email u)); [| exact Hrows].
    intros u Hu. specialize (Hf u). unfold account in Hf.
    assert (User.role (f u) = User.role u) as -> by congruence.
    assert (User.email (f u) = User.email u) as -> by congruence.
    exact Hu. }
  destruct Hl as [-> | (u & -> & Hid & Hfree & Hrole & Hne & Hlow)].
  - rewrite app_nil_r. unfold users_ok. rewrite Eid, Eemail. now repeat split.
  - unfold users_ok. rewrite !map_app, Eid, Eemail. simpl.
    split; [| split].
    + apply NoDup_snoc; [exact Hemails |].
      intros Hin. apply in_map_iff in Hin. destruct Hin as (v & Hv & Hin).
      unfold first_by_email in Hfree.
      pose proof (find_none _ _ Hfree v Hin) as Hneq. simpl in Hneq.
      rewrite Hv, String.eqb_refl in Hneq. discriminate.
    + apply NoDup_snoc; [exact Hids |].
      intros Hin. apply in_map_iff in Hin. destruct Hin as (v & Hv & Hin).
      destruct (keys_below_next User.id (users db)) as [_ Hall].
      rewrite Forall_forall in Hall. specialize (Hall v Hin). lia.
    + apply Forall_app. split; [exact Hrows' |].
      constructor; [| constructor].
      split; [now apply valid_role_cases | now split].
Qed.

Lemma users_ok_reachable {hasher : PasswordHasher} db :
  reachable db -> users_ok (users db).
Proof.
  apply (reachable_induction (fun db => users_ok (users db))).
  - repeat split; constructor.
  - intros db0 e. apply users_ok_step.
Qed.

(** X8. In every store the application can be in, no two users share
    an email or an id, every email is non-empty and in lower case, and
    every role is mentor or mentee. *)
Theorem reachable_users_are_distinct :
  forall {hasher : PasswordHasher} (db : Database),
    reachable db ->
    NoDup (map User.email (users db))
    /\ NoDup (map User.id (users db))
    /\ Forall (fun u => (User.role u = "mentor" \/ User.role u = "mentee")
                        /\ User.email u <> ""
                        /\ Py.lower (User.email u) = User.email u)
              (users db).
Proof.
  intros hasher.
  apply (reachable_induction (fun db => users_ok (users db))).
  - repeat split; constructor.
  - intros db e. apply users_ok_step.
Qed.

(** The sample store, which the sample run produces. *)
Lemma reachable_users_are_distinct_witness :
  NoDup (map User.email (users Sample.db_registered))
  /\ NoDup (map User.id (users Sample.db_registered)).
Proof.
  assert (Hreach : reachable (hasher := demo_hasher) Sample.db_registered).
  { exists Sample.registered. reflexivity. }
  destruct (reachable_users_are_distinct (hasher := demo_hasher) _ Hreach)
    as (Hemails & Hids & _).
  exact (conj Hemails Hids).
Defined.

(** A user with this id and this role is in the table. *)
Definition has_user (l : list User.t) (k : Z) (role : string) : Prop :=
  exists u, In u l /\ User.id u = k /\ User.role u = role.

(** A request row is well formed against the user table. *)
Definition request_ok (l : list User.t) (r : MentorshipRequest.t) : Prop :=
  has_user l (MentorshipRequest.mentor_id r) "mentor"
  /\ has_user l (MentorshipRequest.mentee_id r) "mentee"
  /\ MentorshipRequest.mentor_id r <> MentorshipRequest.mentee_id r
  /\ MentorshipRequest.goal r <> ""
  /\ In (MentorshipRequest.status r)
        ["pending"; "accepted"; "declined"; "completed"].

(** A message row is well formed against the request table. *)
Definition message_ok (rs : list MentorshipRequest.t) (m : Message.t) : Prop :=
  Message.body m <> ""
  /\ exists r,
       In r rs
       /\ MentorshipRequest.id r = Message.mentorship_id m
       /\ (Message.sender_id m = MentorshipRequest.mentor_id r
           \/ Message.sender_id m = MentorshipRequest.mentee_id r).

Definition store_ok (db : Database) : Prop :=
  Forall (request_ok (users db)) (mentorship_requests db)
  /\ Forall (message_ok (mentorship_requests db)) (messages db).

Lemma has_user_step {hasher : PasswordHasher} db e k role :
  has_user (users db) k role -> has_user (users (apply_event db e)) k role.
Proof.
  intros (u & Hin & Hid & Hrole).
  destruct (apply_event_users db e) as (f & l & -> & Hf & _).
  exists (f u). specialize (Hf u). unfold account in Hf.
  split; [apply in_or_app; left; now apply in_map |].
  split; congruence.
Qed.

Lemma request_ok_step {hasher : PasswordHasher} db e r :
  request_ok (users db) r -> request_ok (users (apply_event db e)) r.
Proof.
  intros (Hmentor & Hmentee & Hrest).
  split; [now apply has_user_step |]. split; [now apply has_user_step |].
  exact Hrest.
Qed.

Lemma message_ok_status rs rid s m :
  message_ok rs m ->
  message_ok (map (fun r => if MentorshipRequest.id r =? rid
                            then MentorshipRequest.set_status r s else r) rs) m.
Proof.
  intros (Hbody & r & Hin & Hid & Hpart). split; [exact Hbody |].
  exists (if MentorshipRequest.id r =? rid
          then MentorshipRequest.set_status r s else r).
  split; [now apply in_map with (f := fun r => if MentorshipRequest.id r =? rid
                            then MentorshipRequest.set_status r s else r) |].
  destruct (MentorshipRequest.id r =? rid); now split.
Qed.

Lemma store_ok_step {hasher : PasswordHasher} db e :
  store_ok db -> store_ok (apply_event db e).
Proof.
  intros [Hreqs Hmsgs].
  pose proof (request_ok_step db e) as Hkeep.
  destruct (apply_event_effect db e)
    as [Er Em
       | rid s E Hs
       | mentor mentee goal now E Hm Hmr He Her Hne Hgoal
       | r sender body now E Hin Hpart Hbody
       | rid E].
  - unfold store_ok. rewrite Er, Em. split; [| exact Hmsgs].
    apply (Forall_impl _ (P := request_ok (users db))); [| exact Hreqs].
    intros r. apply Hkeep.
  - rewrite E in *. unfold store_ok, update_status. cbn [users mentorship_requests messages].
    split.
    + apply Forall_map.
      apply (Forall_impl _ (P := request_ok (users db))); [| exact Hreqs].
      intros r (H1 & H2 & H3 & H4 & H5).
      destruct (MentorshipRequest.id r =? rid); [| now repeat split].
      repeat split; try assumption. simpl in Hs |- *. tauto.
    + apply (Forall_impl _ (P := message_ok (mentorship_requests db))); [| exact Hmsgs].
      intros m. apply message_ok_status.
  - rewrite E in *. unfold store_ok, add_mentorship. cbn [users mentorship_requests messages].
    split.
    + apply Forall_app. split; [exact Hreqs |].
      constructor; [| constructor].
      split; [now exists mentor |]. split; [now exists mentee |].
      repeat split; try assumption. simpl. tauto.
    + apply (Forall_impl _ (P := message_ok (mentorship_requests db))); [| exact Hmsgs].
      intros m (Hb & r & Hr & Hrest). split; [exact Hb |].
      exists r. split; [apply in_or_app; now left | exact Hrest].
  - rewrite E in *. unfold store_ok, add_message. cbn [users mentorship_requests messages].
    split; [exact Hreqs |].
    apply Forall_app. split; [exact Hmsgs |].
    constructor; [| constructor].
    split; [exact Hbody |]. exists r. now repeat split.
  - rewrite E in *. unfold store_ok, delete_mentorship. cbn [users mentorship_requests messages].
    rewrite Forall_forall in Hreqs, Hmsgs. split; apply Forall_forall.
    + intros r Hr. apply filter_In in Hr. now apply Hreqs.
    + intros m Hm. apply filter_In in Hm. destruct Hm as [Hm Hkeepm].
      destruct (Hmsgs m Hm) as (Hb & r & Hr & Hid & Hpart).
      split; [exact Hb |]. exists r. split; [| now split].
      apply filter_In. split; [exact Hr |]. now rewrite Hid.
Qed.

Lemma reachable_store_ok {hasher : PasswordHasher} db :
  reachable db -> store_ok db.
Proof.
  apply (reachable_induction store_ok).
  - split; constructor.
  - intros db0 e. apply store_ok_step.
Qed.

(** ** Deletion and the chat of a request *)

Lemma filter_nothing {A : Type} (f : A -> bool) (l : list A) :
  (forall x, In x l -> f x = false) -> filter f l = [].
Proof.
  induction l as [| x l IH]; intros H; simpl; [reflexivity |].
  rewrite (H x (or_introl eq_refl)). apply IH.
  intros y Hy. apply H. now right.
Qed.

(** In a well-formed store no message references an id that the next
    request could take. *)
Lemma no_message_of_next_request (db : Database) :
  store_ok db ->
  messages_of db (next_id MentorshipRequest.id (mentorship_requests db)) = [].
Proof.
  intros [_ Hmsgs]. unfold messages_of. apply filter_nothing.
  intros m Hm. rewrite Forall_forall in Hmsgs.
  destruct (Hmsgs m Hm) as (_ & r & Hr & Hid & _).
  destruct (keys_below_next MentorshipRequest.id (mentorship_requests db))
    as [_ Hall].
  rewrite Forall_forall in Hall. specialize (Hall r Hr).
  apply Z.eqb_neq. lia.
Qed.

(** C9. [delete_mentorship] removes the request and, through the
    cascade of its [messages] relationship, every message that
    references it: the messages of that request, listed afterwards, are
    none, and the request itself is gone.  The messages of any other
    request are listed as before, and no user row is touched.
    Afterwards [mentorship_messages] neither shows nor stores anything
    under that id, whoever asks; and when the store was one the
    application can be in, a request that [mentorships] creates next,
    which may take the id of the deleted one, starts with an empty
    chat. *)
Theorem delete_cascades_to_messages :
  forall {hasher : PasswordHasher} (db : Database) (request_id : Z),
    let db' := delete_mentorship db request_id in
    messages_of db' request_id = []
    /\ chat_of db' request_id = []
    /\ (forall r,
          query_get MentorshipRequest.id (mentorship_requests db') request_id
          <> Found r)
    /\ (forall other,
          other <> request_id ->
          messages_of db' other = messages_of db other
          /\ chat_of db' other = chat_of db other)
    /\ users db' = users db
    /\ (forall session now m form,
          fst (step db' session now (Messages m request_id form)) = db'
          /\ forall mentorship chat,
               reply (snd (step db' session now (Messages m request_id form)))
               <> Render (messages_html mentorship chat))
    /\ (reachable db ->
        forall current_user form now,
          snd (mentorships current_user POST form now db') = created ->
          exists r,
            mentorship_requests (fst (mentorships current_user POST form now db'))
            = (mentorship_requests db' ++ [r])%list
            /\ chat_of (fst (mentorships current_user POST form now db'))
                       (MentorshipRequest.id r) = []).
Proof.
  intros hasher db rid db'.
  assert (Hnone : messages_of db' rid = []) by apply filter_same_request.
  assert (Hgone : forall r,
             query_get MentorshipRequest.id (mentorship_requests db') rid
             <> Found r).
  { intros r Hget. apply query_get_found_id in Hget.
    destruct Hget as [Hid Hin]. simpl in Hin.
    apply filter_In in Hin. destruct Hin as [_ Hb].
    apply Z.eqb_eq in Hid. rewrite Hid in Hb. discriminate. }
  split; [exact Hnone |].
  split; [unfold chat_of; now rewrite Hnone |].
  split; [exact Hgone |].
  split; [| split; [reflexivity | split]].
  - intros other Hne.
    assert (Hsame : messages_of db' other = messages_of db other)
      by (now apply filter_other_request).
    split; [exact Hsame | unfold chat_of; now rewrite Hsame].
  - intros session now m form. unfold step, login_required.
    destruct session as [uid |]; [| split; [reflexivity | discriminate]].
    destruct (load_user db' uid) as [u | |];
      try (split; [reflexivity | discriminate]).
    unfold mentorship_messages, get_or_404.
    destruct (query_get MentorshipRequest.id (mentorship_requests db') rid)
      as [r | |] eqn:Hget; try (split; [reflexivity | discriminate]).
    now elim (Hgone r).
  - intros Hreach cu form now Hcreated.
    assert (Hok : store_ok db').
    { apply (store_ok_step db (DeleteMentorship rid)).
      now apply reachable_store_ok. }
    destruct (mentorships_created_inv _ _ _ _ Hcreated) as (mentor & -> & _).
    eexists. split; [reflexivity |].
    unfold chat_of. cbn [MentorshipRequest.id].
    change (messages_of (add_mentorship db' (User.id mentor) (User.id cu)
                           (Py.strip (form_get_or form "goal" "")) now)
              (next_id MentorshipRequest.id (mentorship_requests db')))
      with (messages_of db'
              (next_id MentorshipRequest.id (mentorship_requests db'))).
    now rewrite (no_message_of_next_request db' Hok).
Qed.

(** Alice has asked Bob and written "hi" and "again" to him.  The
    request is deleted: its chat is empty, a GET of its messages is a
    404, and when Alice next asks Carol, the new request takes id 1 and
    its chat is empty. *)
Lemma delete_cascades_to_messages_witness :
  let db := run (hasher := demo_hasher) Sample.db_requested
                [ Request (Some 1) 200 (Messages POST 1 [("body", "hi")]);
                  Request (Some 1) 210 (Messages POST 1 [("body", "again")]) ] in
  let db' := delete_mentorship db 1 in
  let asked := fst (mentorships Sample.alice POST
                      [("mentor_id", "3"); ("goal", "learn Y")] 220 db') in
  List.length (chat_of db 1) = 2%nat
  /\ chat_of db' 1 = []
  /\ step (hasher := demo_hasher) db' (Some 1) 215 (Messages GET 1 [])
     = (db', quiet (Abort 404))
  /\ mentorship_requests asked
     = [MentorshipRequest.mk 1 3 1 "learn Y" "pending" 220]
  /\ chat_of asked 1 = [].
Proof.
  intros db db' asked.
  destruct (delete_cascades_to_messages (hasher := demo_hasher) db 1)
    as (_ & Hchat & _ & _ & _ & _ & Hnext).
  assert (Hreach : reachable (hasher := demo_hasher) db).
  { exists (Sample.requested ++
            [ Request (Some 1) 200 (Messages POST 1 [("body", "hi")]);
              Request (Some 1) 210 (Messages POST 1 [("body", "again")]) ])%list.
    reflexivity. }
  destruct (Hnext Hreach Sample.alice
              [("mentor_id", "3"); ("goal", "learn Y")] 220 eq_refl)
    as (r & Hrows & Hempty).
  split; [reflexivity |]. split; [exact Hchat |]. split; [reflexivity |].
  assert (Hr : r = MentorshipRequest.mk 1 3 1 "learn Y" "pending" 220).
  { vm_compute in Hrows. now injection Hrows as <-. }
  subst r. split; [reflexivity | exact Hempty].
Defined.

(** X9. In every store the application can be in, every mentorship
    request names as mentor a stored user whose role is mentor and as
    mentee a stored user whose role is mentee, the two are different
    users, the goal is not empty, and the status is one of pending,
    accepted, declined and completed. *)
Theorem reachable_requests_are_well_formed :
  forall {hasher : PasswordHasher} (db : Database),
    reachable db ->
    Forall (fun r =>
              (exists u, In u (users db)
                         /\ User.id u = MentorshipRequest.mentor_id r
                         /\ User.role u = "mentor")
              /\ (exists u, In u (users db)
                            /\ User.id u = MentorshipRequest.mentee_id r
                            /\ User.role u = "mentee")
              /\ MentorshipRequest.mentor_id r <> MentorshipRequest.mentee_id r
              /\ MentorshipRequest.goal r <> ""
              /\ In (MentorshipRequest.status r)
                    ["pending"; "accepted"; "declined"; "completed"])
           (mentorship_requests db).
Proof.
  intros hasher db Hreach. exact (proj1 (reachable_store_ok db Hreach)).
Qed.

(** The request of the sample store: Bob is its mentor and a mentor. *)
Lemma reachable_requests_are_well_formed_witness :
  exists u, In u (users Sample.db_requested)
            /\ User.id u = MentorshipRequest.mentor_id Sample.learn_x
            /\ User.role u = "mentor".
Proof.
  assert (Hreach : reachable (hasher := demo_hasher) Sample.db_requested).
  { exists Sample.requested. reflexivity. }
  pose proof (reachable_requests_are_well_formed (hasher := demo_hasher) _ Hreach)
    as Hall.
  rewrite Forall_forall in Hall.
  exact (proj1 (Hall Sample.learn_x (or_introl eq_refl))).
Defined.

(** X10. In every store the application can be in, every message has a
    body that is not empty and references a stored request of which its
    sender is the mentor or the mentee. *)
Theorem reachable_messages_are_well_formed :
  forall {hasher : PasswordHasher} (db : Database),
    reachable db ->
    Forall (fun m =>
              Message.body m <> ""
              /\ exists r,
                   In r (mentorship_requests db)
                   /\ MentorshipRequest.id r = Message.mentorship_id m
                   /\ (Message.sender_id m = MentorshipRequest.mentor_id r
                       \/ Message.sender_id m = MentorshipRequest.mentee_id r))
           (messages db).
Proof.
  intros hasher db Hreach. exact (proj2 (reachable_store_ok db Hreach)).
Qed.

(** Alice says "hi" on her request; Carol, no party to it, tries too. *)
Lemma reachable_messages_are_well_formed_witness :
  let db := run (hasher := demo_hasher) Sample.db_requested
                [ Request (Some 1) 200 (Messages POST 1 [("body", "hi")]);
                  Request (Some 3) 210 (Messages POST 1 [("body", "me too")]) ] in
  messages db = [Message.mk 1 1 1 "hi" 200]
  /\ Forall (fun m => Message.body m <> "") (messages db).
Proof.
  intros db.
  assert (Hreach : reachable (hasher := demo_hasher) db).
  { exists (Sample.requested ++
            [ Request (Some 1) 200 (Messages POST 1 [("body", "hi")]);
              Request (Some 3) 210 (Messages POST 1 [("body", "me too")]) ])%list.
    reflexivity. }
  pose proof (reachable_messages_are_well_formed (hasher := demo_hasher) _ Hreach)
    as Hall.
  split; [reflexivity |].
  apply (Forall_impl _ (P := fun m =>
              Message.body m <> ""
              /\ exists r,
                   In r (mentorship_requests db)
                   /\ MentorshipRequest.id r = Message.mentorship_id m
                   /\ (Message.sender_id m = MentorshipRequest.mentor_id r
                       \/ Message.sender_id m = MentorshipRequest.mentee_id r)));
    [intros m Hm; exact (proj1 Hm) | exact Hall].
Defined.

(** X11. In every store the application can be in, the mentee of a
    request can neither accept nor decline it: both answer with an
    AuthorizationError and change nothing. *)
Theorem mentee_cannot_answer_own_request :
  forall {hasher : PasswordHasher} (db : Database) (current_user : User.t)
         (request_id : Z) (mentorship : MentorshipRequest.t),
    reachable db ->
    query_get MentorshipRequest.id (mentorship_requests db) request_id
      = Found mentorship ->
    User.id current_user = MentorshipRequest.mentee_id mentorship ->
    (error_of (snd (accept_request current_user request_id db))
       = Some AuthorizationError
     /\ fst (accept_request current_user request_id db) = db)
    /\ (error_of (snd (decline_request current_user request_id db))
          = Some AuthorizationError
        /\ fst (decline_request current_user request_id db) = db).
Proof.
  intros hasher db u rid r Hreach Hget Hmentee.
  destruct (query_get_found_id _ _ _ _ Hget) as [_ Hin].
  destruct (reachable_store_ok db Hreach) as [Hreqs _].
  rewrite Forall_forall in Hreqs.
  destruct (Hreqs r Hin) as (_ & _ & Hne & _).
  assert (E : (MentorshipRequest.mentor_id r =? User.id u) = false)
    by (apply Z.eqb_neq; congruence).
  unfold accept_request, decline_request, get_or_404.
  rewrite Hget, E. repeat split.
Qed.

(** Alice cannot accept the request she made. *)
Lemma mentee_cannot_answer_own_request_witness :
  error_of (snd (accept_request Sample.alice 1 Sample.db_requested))
  = Some AuthorizationError
  /\ fst (accept_request Sample.alice 1 Sample.db_requested)
     = Sample.db_requested.
Proof.
  assert (Hreach : reachable (hasher := demo_hasher) Sample.db_requested).
  { exists Sample.requested. reflexivity. }
  exact (proj1 (mentee_cannot_answer_own_request (hasher := demo_hasher)
                  Sample.db_requested Sample.alice 1 Sample.learn_x
                  Hreach eq_refl eq_refl)).
Defined.

(** ** Dashboard *)

Lemma role_partition (l : list User.t) :
  Forall (fun u => User.role u = "mentor" \/ User.role u = "mentee") l ->
  List.length l
  = (List.length (filter (fun u => String.eqb (User.role u) "mentor") l)
     + List.length (filter (fun u => String.eqb (User.role u) "mentee") l))%nat.
Proof.
  induction 1 as [| u l Hu _ IH]; simpl; [reflexivity |].
  destruct Hu as [-> | ->]; simpl; rewrite IH; lia.
Qed.

(** X12. In every store the application can be in, the counts that
    [dashboard] shows add up: the number of users is the number of
    mentors plus the number of mentees, and these two are the lengths
    of the two lists the page shows. *)
Theorem dashboard_counts_add_up :
  forall {hasher : PasswordHasher} (db : Database) (current_user : User.t),
    reachable db ->
    exists mentors mentees my_requests stats,
      snd (dashboard current_user db)
      = quiet (Render (dashboard_html mentors mentees my_requests stats))
      /\ mentor_count stats = Z.of_nat (List.length mentors)
      /\ mentee_count stats = Z.of_nat (List.length mentees)
      /\ total_users stats = mentor_count stats + mentee_count stats.
Proof.
  intros hasher db u Hreach. unfold dashboard.
  do 4 eexists. split; [reflexivity |]. cbn.
  split; [reflexivity |]. split; [reflexivity |].
  destruct (users_ok_reachable db Hreach) as (_ & _ & Hrows).
  unfold users_by_role. rewrite <- Nat2Z.inj_add. f_equal.
  apply role_partition.
  apply (Forall_impl _ (P := fun u => (User.role u = "mentor" \/ User.role u = "mentee")
                        /\ User.email u <> ""
                        /\ Py.lower (User.email u) = User.email u));
    [intros v Hv; exact (proj1 Hv) | exact Hrows].
Qed.

(** One mentee and two mentors make three users. *)
Lemma dashboard_counts_add_up_witness :
  exists mentors mentees my_requests,
    snd (dashboard Sample.alice Sample.db_requested)
    = quiet (Render (dashboard_html mentors mentees my_requests
                                    (mkStats 3 2 1 0))).
Proof.
  assert (Hreach : reachable (hasher := demo_hasher) Sample.db_requested).
  { exists Sample.requested. reflexivity. }
  destruct (dashboard_counts_add_up (hasher := demo_hasher) Sample.db_requested
              Sample.alice Hreach) as (ms & es & rs & st & Heq & _).
  exists ms, es, rs. rewrite Heq.
  unfold dashboard in Heq. injection Heq as <- <- <- <-. reflexivity.
Defined.

(** ** Login and the form of an email *)

(** X13. Login reads the email as registration does, trimmed and
    lowered: when a registration redirects to the dashboard, which it
    does only after it has stored the user, a later login whose email
    differs from the registered one only by case and by surrounding
    blanks, with the same password, signs the caller in as that
    user. *)
Theorem login_normalises_email :
  forall {hasher : PasswordHasher}
         (db : Database) (form : Form) (salt : string) (now : Z)
         (events : list Event) (login_form : Form),
    reply (snd (register POST form salt now db)) = Redirect to_dashboard ->
    Py.lower (Py.strip (form_get_or login_form "email" ""))
    = Py.lower (Py.strip (form_get_or form "email" "")) ->
    form_get_or login_form "password" "" = form_get_or form "password" "" ->
    login POST login_form (run (fst (register POST form salt now db)) events)
    = (run (fst (register POST form salt now db)) events,
       signed_in (next_id User.id (users db))).
Proof.
  intros hasher db form salt now events login_form Hok Hemail Hpassword.
  destruct (register_success_inv _ _ _ _ Hok)
    as (r & digest & _ & _ & _ & _ & _ & Hfree & Hh & Heq).
  rewrite Heq. cbn [fst].
  match goal with
  | |- context [run (mkDatabase (users db ++ [?n]) ?rs ?ms) events] =>
      set (u := n); set (db1 := mkDatabase (users db ++ [u]) rs ms)
  end.
  assert (Hu : first_by_email db1
                 (Py.lower (Py.strip (form_get_or login_form "email" "")))
               = Some u).
  { unfold first_by_email in *. subst db1. cbn [users].
    rewrite Hemail, (find_app_none _ _ _ Hfree). simpl.
    now rewrite String.eqb_refl. }
  destruct (run_keeps_account events _ _ _ Hu) as (u' & Hu' & Hacc).
  unfold login. rewrite Hu'.
  unfold account in Hacc. subst u. cbn [User.id User.password_hash] in Hacc.
  injection Hacc as Hid _ _ Hhash.
  unfold check_password.
  rewrite Hhash, Hpassword, (verify_hash _ _ _ Hh), Hid.
  reflexivity.
Qed.

(** Alice registered as " Alice@Example.org " and logs in as
    "ALICE@EXAMPLE.ORG". *)
Lemma login_normalises_email_witness :
  let db := fst (register (hasher := demo_hasher) POST Sample.alice_form
                          "s1" 100 empty_db) in
  login (hasher := demo_hasher) POST
        [("email", "ALICE@EXAMPLE.ORG"); ("password", "correct horse")] db
  = (db, signed_in 1).
Proof.
  exact (login_normalises_email (hasher := demo_hasher) empty_db
           Sample.alice_form "s1" 100 []
           [("email", "ALICE@EXAMPLE.ORG"); ("password", "correct horse")]
           eq_refl eq_refl eq_refl).
Defined.

(** ** Requests that only read *)

(** The requests that [app.py] serves without a write: every GET, the
    login and the logout. *)
Definition reads_only (a : Action) : bool :=
  match a with
  | Index | Login _ _ | Logout | Dashboard => true
  | Register GET _ _ | EditProfile GET _ | Mentorships GET _
  | Messages GET _ _ => true
  | _ => false
  end.

(** X14. A GET of any view, a login (right or wrong) and a logout
    leave the store exactly as it was, whoever the caller is. *)
Theorem reads_leave_the_store :
  forall {hasher : PasswordHasher}
         (db : Database) (session : option Z) (now : Z) (a : Action),
    reads_only a = true ->
    fst (step db session now a) = db.
Proof.
  intros hasher db session now a Hread.
  destruct a; try discriminate Hread;
    try (destruct m; try discriminate Hread);
    unfold step, login_required, index, register, login, logout, dashboard,
      edit_profile, mentorships, mentorship_messages, get_or_404;
    split_cases; reflexivity.
Qed.

(** Alice reads the chat of her request; somebody fails to log in. *)
Lemma reads_leave_the_store_witness :
  fst (step (hasher := demo_hasher) Sample.db_requested (Some 1) 200
            (Messages GET 1 []))
  = Sample.db_requested
  /\ fst (step (hasher := demo_hasher) Sample.db_requested None 200
               (Login POST [("email", "bob@example.org"); ("password", "x")]))
     = Sample.db_requested.
Proof.
  split; apply (reads_leave_the_store (hasher := demo_hasher)); reflexivity.
Defined.

(** ** Who sees a chat *)

(** X15. The messages of a request are rendered only by
    [mentorship_messages], only for a signed-in user who is the mentor
    or the mentee of that request, and then they are the messages of
    that request by ascending creation time: no response to anybody
    else carries a chat. *)
Theorem chat_is_shown_to_participants_only :
  forall {hasher : PasswordHasher}
         (db : Database) (session : option Z) (now : Z) (a : Action)
         (mentorship : MentorshipRequest.t) (shown : list Message.t),
    reply (snd (step db session now a))
      = Render (messages_html mentorship shown) ->
    exists uid current_user,
      session = Some uid
      /\ load_user db uid = Found current_user
      /\ In mentorship (mentorship_requests db)
      /\ (User.id current_user = MentorshipRequest.mentor_id mentorship
          \/ User.id current_user = MentorshipRequest.mentee_id mentorship)
      /\ shown = chat_of db (MentorshipRequest.id mentorship).
Proof.
  intros hasher db session now a r shown.
  destruct a;
    try (unfold step, login_required, index, register, set_password, add_user, login, logout,
           dashboard, edit_profile, mentorships, mentorships_page,
           accept_request, decline_request, complete_request, get_or_404;
         split_cases; simpl; discriminate).
  unfold step.
  destruct (login_required_cases db session
              (fun u => mentorship_messages u m request_id form now db))
    as [-> | [-> | (uid & u & -> & Hload & ->)]]; try discriminate.
  unfold mentorship_messages, get_or_404, messages_page.
  destruct (query_get MentorshipRequest.id (mentorship_requests db) request_id)
    as [r0 | |] eqn:Hget; try discriminate.
  destruct (unrelated u r0) eqn:Hrel; [discriminate |].
  assert (Hpart : User.id u = MentorshipRequest.mentor_id r0
                  \/ User.id u = MentorshipRequest.mentee_id r0).
  { unfold unrelated in Hrel. apply negb_false_iff, orb_true_iff in Hrel.
    destruct Hrel as [H | H]; [left | right]; now apply Z.eqb_eq. }
  destruct (query_get_found_id _ _ _ _ Hget) as [_ Hin].
  destruct m; [| destruct (Py.truthy _); [discriminate |]];
    simpl; intros [= <- <-]; exists uid, u; repeat split; assumption.
Qed.

(** Alice is shown the chat of her request, empty so far. *)
Lemma chat_is_shown_to_participants_only_witness :
  exists uid current_user,
    Some 1 = Some uid
    /\ load_user Sample.db_requested uid = Found current_user
    /\ In Sample.learn_x (mentorship_requests Sample.db_requested)
    /\ (User.id current_user = MentorshipRequest.mentor_id Sample.learn_x
        \/ User.id current_user = MentorshipRequest.mentee_id Sample.learn_x)
    /\ [] = chat_of Sample.db_requested (MentorshipRequest.id Sample.learn_x).
Proof.
  exact (chat_is_shown_to_participants_only (hasher := demo_hasher)
           Sample.db_requested (Some 1) 200 (Messages GET 1 [])
           Sample.learn_x [] eq_refl).
Defined.

(** ** A created request and the two listings *)

Lemma requests_of_In db uid r :
  In r (requests_of db uid)
  <-> In r (mentorship_requests db)
      /\ (MentorshipRequest.mentor_id r = uid
          \/ MentorshipRequest.mentee_id r = uid).
Proof.
  unfold requests_of. split.
  - intros Hin.
    apply (Permutation_in _ (order_by_desc_perm _ _)) in Hin.
    apply filter_In in Hin. destruct Hin as [Hin Hb].
    split; [exact Hin |].
    apply orb_true_iff in Hb. destruct Hb as [Hb | Hb];
      [left | right]; now apply Z.eqb_eq.
  - intros [Hin Hpart].
    apply (Permutation_in _ (Permutation_sym (order_by_desc_perm _ _))).
    apply filter_In. split; [exact Hin |].
    apply orb_true_iff. destruct Hpart as [H | H];
      [left | right]; now apply Z.eqb_eq.
Qed.

(** X16. When [mentorships] creates a request, the new request is on
    the listing of the caller and on the listing of the mentor it
    names, and on the listing of no other user. *)
Theorem created_request_is_listed_for_both :
  forall (db : Database) (current_user : User.t) (form : Form) (now : Z),
    snd (mentorships current_user POST form now db) = created ->
    exists r,
      mentorship_requests (fst (mentorships current_user POST form now db))
      = (mentorship_requests db ++ [r])%list
      /\ MentorshipRequest.mentee_id r = User.id current_user
      /\ forall uid,
           In r (requests_of (fst (mentorships current_user POST form now db)) uid)
           <-> uid = MentorshipRequest.mentor_id r \/ uid = User.id current_user.
Proof.
  intros db cu form now Hcreated.
  destruct (mentorships_created_inv _ _ _ _ Hcreated) as (mentor & -> & _).
  eexists. split; [reflexivity |]. split; [reflexivity |].
  intros uid. rewrite requests_of_In. cbn.
  split.
  - intros [_ [H | H]]; [left | right]; congruence.
  - intros H. split; [apply in_or_app; right; now left |].
    destruct H as [-> | ->]; [left | right]; reflexivity.
Qed.

(** Alice asks Carol: the request is on Alice's listing and on Carol's,
    not on Bob's. *)
Lemma created_request_is_listed_for_both_witness :
  let db' := fst (mentorships Sample.alice POST
                    [("mentor_id", "3"); ("goal", "learn Y")] 140
                    Sample.db_requested) in
  let r := MentorshipRequest.mk 2 3 1 "learn Y" "pending" 140 in
  In r (requests_of db' 1) /\ In r (requests_of db' 3)
  /\ ~ In r (requests_of db' 2).
Proof.
  intros db' r.
  destruct (created_request_is_listed_for_both Sample.db_requested Sample.alice
              [("mentor_id", "3"); ("goal", "learn Y")] 140 eq_refl)
    as (r' & Hreqs & _ & Hlisted).
  assert (Hr : r' = r) by (injection Hreqs as <-; reflexivity).
  subst r'. fold db' in Hlisted.
  split; [apply Hlisted; right; reflexivity |].
  split; [apply Hlisted; left; reflexivity |].
  intros Hin. apply Hlisted in Hin. destruct Hin as [H | H]; discriminate H.
Defined.

(** ** The mentors a mentee is offered *)

Lemma find_unique_id (l : list User.t) (u : User.t) :
  NoDup (map User.id l) -> In u l ->
  find (fun v => User.id v =? User.id u) l = Some u.
Proof.
  induction l as [| v l IH]; simpl; intros Hnd Hin; [contradiction |].
  inversion Hnd as [| ? ? Hnotin Hnd']; subst.
  destruct Hin as [-> | Hin].
  - now rewrite Z.eqb_refl.
  - destruct (User.id v =? User.id u) eqn:E; [| now apply IH].
    apply Z.eqb_eq in E. elim Hnotin. rewrite E. now apply in_map.
Qed.

Lemma int_of_empty (s : string) (k : Z) : Py.int s = Some k -> s <> "".
Proof. intros H ->. discriminate H. Qed.

(** X17. In every store the application can be in, every mentor that
    [mentorships] offers in its form can be asked: a mentee who sends
    that mentor's id (within the key range of the store) and a goal
    that is not blank gets the request created, with that mentor. *)
Theorem offered_mentor_can_be_asked :
  forall {hasher : PasswordHasher}
         (db : Database) (current_user mentor : User.t) (form : Form)
         (now : Z) (s : string),
    reachable db ->
    In mentor (users_by_role db "mentor") ->
    in_key_range (User.id mentor) = true ->
    User.role current_user = "mentee" ->
    form_get form "mentor_id" = Some s ->
    Py.int s = Some (User.id mentor) ->
    Py.strip (form_get_or form "goal" "") <> "" ->
    mentorships current_user POST form now db
    = (add_mentorship db (User.id mentor) (User.id current_user)
                      (Py.strip (form_get_or form "goal" "")) now,
       created).
Proof.
  intros hasher db cu mentor form now s Hreach Hlisted Hrange Hrole Hs Hint Hgoal.
  apply filter_In in Hlisted. destruct Hlisted as [Hin Hmentor].
  destruct (users_ok_reachable db Hreach) as (_ & Hids & _).
  assert (Hget : query_get User.id (users db) (User.id mentor) = Found mentor).
  { unfold query_get. now rewrite Hrange, (find_unique_id _ _ Hids Hin). }
  pose proof (int_of_empty _ _ Hint) as Hne.
  apply truthy_true in Hne, Hgoal.
  unfold mentorships. rewrite Hs, Hgoal, Hrole. simpl. rewrite Hne. simpl.
  rewrite Hint, Hget, Hmentor. reflexivity.
Qed.

(** Carol is on the list of mentors; Alice asks her. *)
Lemma offered_mentor_can_be_asked_witness :
  In Sample.carol (users_by_role Sample.db_registered "mentor")
  /\ snd (mentorships Sample.alice POST
            [("mentor_id", " 3 "); ("goal", "learn Y")] 140 Sample.db_registered)
     = created.
Proof.
  assert (Hreach : reachable (hasher := demo_hasher) Sample.db_registered).
  { exists Sample.registered. reflexivity. }
  assert (Hlisted : In Sample.carol (users_by_role Sample.db_registered "mentor")).
  { right. left. reflexivity. }
  split; [exact Hlisted |].
  rewrite (offered_mentor_can_be_asked (hasher := demo_hasher)
             Sample.db_registered Sample.alice Sample.carol
             [("mentor_id", " 3 "); ("goal", "learn Y")] 140 " 3 "
             Hreach Hlisted eq_refl eq_refl eq_refl eq_refl).
  - reflexivity.
  - discriminate.
Defined.
